(** * pingdom.py: the Pingdom SOAP client, embedded and verified

    The module [src/pingdom.py] is a thin client over a SOAP proxy.  The
    embedding below follows it method by method:

    - Python values are the inductive [value]; the instance dictionary of
      a [Pingdom] object is a [gmap string value], so that reading an
      attribute that was never stored fails the way it does in Python;
    - exceptions are the inductive [exn]; a method is a computation in the
      state-and-exception monad [M]: it takes the state (the instance
      dictionary and the list of remote calls made so far) and gives an
      outcome and the new state, the state changes made before a [Raise]
      being kept;
    - the SOAP proxy [self._server] is outside the repository: it is the
      section variable [srv], which answers a call knowing the calls made
      before it. *)

From Stdlib Require Import ZArith List String Ascii Bool Lia.
From stdpp Require Import base option strings gmap list pretty.

Set Warnings "-register-all".

Open Scope Z_scope.
Open Scope string_scope.

(** ** Values and exceptions *)

Inductive value : Type :=
| VNone
| VInt (z : Z)
| VStr (s : string)
| VTuple (xs : list value)
| VList (xs : list value)
| VDict (kvs : list (string * value))     (* a dict with string keys *)
| VStruct (kvs : list (string * value))   (* a SOAPpy structType *)
| VDateTime (v : value)                   (* a SOAPpy dateTimeType *)
| VProxy (wsdl : string).                 (* a SOAPpy WSDL.Proxy *)

Inductive exn : Type :=
| ValueError (msg : string)
| TypeError (msg : string)
| KeyError (key : value)
| AttributeError (name : string)
| PingdomException (status : value) (message : string)
| Fault (msg : string).                   (* raised by the transport *)

Inductive outcome (A : Type) : Type :=
| Return (a : A)
| Raise (e : exn).
Arguments Return {A} a.
Arguments Raise {A} e.

(** Python's [==] on the values above. *)
Fixpoint py_eq (a b : value) : bool :=
  let fix all2 (xs ys : list value) : bool :=
    match xs, ys with
    | [], [] => true
    | x :: xs', y :: ys' => py_eq x y && all2 xs' ys'
    | _, _ => false
    end in
  let fix fields2 (xs ys : list (string * value)) : bool :=
    match xs, ys with
    | [], [] => true
    | (k, x) :: xs', (l, y) :: ys' => String.eqb k l && py_eq x y && fields2 xs' ys'
    | _, _ => false
    end in
  match a, b with
  | VNone, VNone => true
  | VInt x, VInt y => Z.eqb x y
  | VStr s, VStr t => String.eqb s t
  | VTuple xs, VTuple ys => all2 xs ys
  | VList xs, VList ys => all2 xs ys
  | VDict xs, VDict ys => fields2 xs ys
  | VStruct xs, VStruct ys => fields2 xs ys
  | VDateTime x, VDateTime y => py_eq x y
  | VProxy u, VProxy v => String.eqb u v
  | _, _ => false
  end.

Definition type_name (v : value) : string :=
  match v with
  | VNone => "NoneType"
  | VInt _ => "int"
  | VStr _ => "str"
  | VTuple _ => "tuple"
  | VList _ => "list"
  | VDict _ => "dict"
  | VStruct _ => "structType"
  | VDateTime _ => "dateTimeType"
  | VProxy _ => "Proxy"
  end.

(** Lists and dicts cannot be dict keys, nor can a tuple holding one. *)
Fixpoint hashable (v : value) : bool :=
  match v with
  | VList _ | VDict _ => false
  | VTuple xs => forallb hashable xs
  | _ => true
  end.

(** What a [for] loop (or [map], or tuple unpacking) goes through. *)
Definition py_iter (v : value) : outcome (list value) :=
  match v with
  | VTuple xs | VList xs => Return xs
  | VStr s => Return (map (fun c => VStr (String c EmptyString)) (list_ascii_of_string s))
  | VDict kvs => Return (map (fun kv => VStr (fst kv)) kvs)
  | VStruct kvs => Return (map snd kvs)
  | _ => Raise (TypeError ("'" ++ type_name v ++ "' object is not iterable"))
  end.

(** [a, b = v] *)
Definition unpack2 (v : value) : outcome (value * value) :=
  match py_iter v with
  | Raise e => Raise e
  | Return [a; b] => Return (a, b)
  | Return (_ :: _ :: _ :: _) => Raise (ValueError "too many values to unpack")
  | Return [_] => Raise (ValueError "need more than 1 value to unpack")
  | Return [] => Raise (ValueError "need more than 0 values to unpack")
  end.

Fixpoint assoc {A : Type} (k : string) (kvs : list (string * A)) : option A :=
  match kvs with
  | [] => None
  | (k', v) :: rest => if String.eqb k k' then Some v else assoc k rest
  end.

(** [v[k]] for a string [k]. *)
Definition getitem (v : value) (k : string) : outcome value :=
  match v with
  | VDict kvs =>
      match assoc k kvs with Some x => Return x | None => Raise (KeyError (VStr k)) end
  | VStruct kvs =>
      match assoc k kvs with Some x => Return x | None => Raise (AttributeError k) end
  | VDateTime _ | VProxy _ => Raise (AttributeError "__getitem__")
  | VNone | VInt _ =>
      Raise (TypeError ("'" ++ type_name v ++ "' object has no attribute '__getitem__'"))
  | VStr _ => Raise (TypeError "string indices must be integers, not str")
  | VTuple _ | VList _ =>
      Raise (TypeError (type_name v ++ " indices must be integers, not str"))
  end.

Fixpoint occurs (t s : string) : bool :=
  String.prefix t s ||
  match s with
  | EmptyString => false
  | String _ s' => occurs t s'
  end.

(** [x in c] *)
Definition py_in (x c : value) : outcome bool :=
  match c with
  | VStr s =>
      match x with
      | VStr t => Return (occurs t s)
      | _ => Raise (TypeError "'in <string>' requires string as left operand")
      end
  | VDict kvs =>
      if hashable x then Return (existsb (fun kv => py_eq x (VStr (fst kv))) kvs)
      else Raise (TypeError ("unhashable type: '" ++ type_name x ++ "'"))
  | _ =>
      match py_iter c with
      | Return xs => Return (existsb (py_eq x) xs)
      | Raise _ =>
          Raise (TypeError ("argument of type '" ++ type_name c ++ "' is not iterable"))
      end
  end.

(** [t[:6]] *)
Definition slice6 (t : value) : outcome value :=
  match t with
  | VTuple xs => Return (VTuple (firstn 6 xs))
  | VList xs => Return (VList (firstn 6 xs))
  | VStr s => Return (VStr (String.substring 0 6 s))
  | _ => Raise (TypeError ("'" ++ type_name t ++ "' object has no attribute '__getitem__'"))
  end.

(** [x._asdict()] *)
Definition _asdict (x : value) : outcome value :=
  match x with
  | VStruct kvs => Return (VDict kvs)
  | _ => Raise (AttributeError "_asdict")
  end.

(** ** The module's constants *)

Definition PINGDOM_WSDL : string := "https://ws.pingdom.com/soap/PingdomAPI.wsdl".

Definition STATUS_CODES : list (Z * string) :=
  [ (0, "OK"); (1, "Reserved"); (2, "Reserved"); (3, "Invalid Argument");
    (4, "Internal Error"); (5, "Wrong Identification");
    (6, "Wrong Authorization"); (7, "Wrong Authentication") ].

Definition CHECK_RESULTS : list (string * string) :=
  [ ("CHECK_UP", "Up"); ("CHECK_DOWN", "Down"); ("CHECK_UNKNOWN", "Unknown") ].

Definition REPORT_RESOLUTIONS : list (string * string) :=
  [ ("DAILY", "Daily"); ("WEEKLY", "Weekly"); ("MONTHLY", "Montly") ].

Fixpoint assocZ (k : Z) (kvs : list (Z * string)) : option string :=
  match kvs with
  | [] => None
  | (k', v) :: rest => if Z.eqb k k' then Some v else assocZ k rest
  end.

(** [STATUS_CODES[status]] *)
Definition STATUS_CODES_getitem (status : value) : outcome string :=
  match status with
  | VInt z =>
      match assocZ z STATUS_CODES with
      | Some meaning => Return meaning
      | None => Raise (KeyError status)
      end
  | _ =>
      if hashable status then Raise (KeyError status)
      else Raise (TypeError ("unhashable type: '" ++ type_name status ++ "'"))
  end.

(** [str(v)], as the [%s] of a format string gives it, for the values that
    are formatted here. *)
Definition py_str (v : value) : string :=
  match v with
  | VInt z => pretty z
  | VStr s => s
  | VNone => "None"
  | _ => "<" ++ type_name v ++ ">"
  end.

(** [PingdomException(status)]: the constructor stores the status and looks
    its meaning up in [STATUS_CODES]; a failed lookup raises out of the
    constructor, so that no [PingdomException] comes to exist. *)
Definition PingdomException_init (status : value) : outcome exn :=
  match STATUS_CODES_getitem status with
  | Return meaning =>
      Return (PingdomException status ("Error " ++ py_str status ++ ": " ++ meaning))
  | Raise e => Raise e
  end.

(** [resolution in REPORT_RESOLUTIONS] *)
Definition REPORT_RESOLUTIONS_contains (resolution : value) : outcome bool :=
  py_in resolution (VDict (map (fun kv => (fst kv, VStr (snd kv))) REPORT_RESOLUTIONS)).

(** ** State, and the monad of methods *)

(** A remote call: the method's name and its positional arguments. *)
Definition call : Type := string * list value.

Record state : Type := State {
  attrs : gmap string value;   (* the instance's __dict__ *)
  wire : list call             (* the remote calls made so far, oldest first *)
}.

Definition M (A : Type) : Type := state -> outcome A * state.

#[global] Instance M_ret : MRet M := fun A a st => (Return a, st).

#[global] Instance M_bind : MBind M := fun A B f m st =>
  match m st with
  | (Return a, st') => f a st'
  | (Raise e, st') => (Raise e, st')
  end.

Definition raise {A : Type} (e : exn) : M A := fun st => (Raise e, st).

Definition lift {A : Type} (o : outcome A) : M A := fun st => (o, st).

(** [self.name], for a name that is no property or method of the class. *)
Definition getattr (name : string) : M value := fun st =>
  match attrs st !! name with
  | Some v => (Return v, st)
  | None => (Raise (AttributeError name), st)
  end.

(** [self.name = v] *)
Definition setattr (name : string) (v : value) : M unit := fun st =>
  (Return tt, State (<[name := v]> (attrs st)) (wire st)).

(** [raise PingdomException(status)]: the exception is built first. *)
Definition raise_PingdomException {A : Type} (status : value) : M A :=
  match PingdomException_init status with
  | Return e => raise e
  | Raise e => raise e
  end.

Definition is_None (v : value) : bool :=
  match v with VNone => true | _ => false end.

Fixpoint map_outcome (f : value -> outcome value) (xs : list value) : outcome (list value) :=
  match xs with
  | [] => Return []
  | x :: rest =>
      match f x with
      | Raise e => Raise e
      | Return y =>
          match map_outcome f rest with
          | Raise e => Raise e
          | Return ys => Return (y :: ys)
          end
      end
  end.

(** [map(f, v)], a list in Python 2. *)
Definition py_map (f : value -> outcome value) (v : value) : outcome value :=
  match py_iter v with
  | Raise e => Raise e
  | Return xs =>
      match map_outcome f xs with
      | Raise e => Raise e
      | Return ys => Return (VList ys)
      end
  end.

(** Calling a method of four parameters (besides [self]) with the
    positional arguments [args]. *)
Definition apply4 {A : Type} (name : string) (f : value -> value -> value -> value -> M A)
    (args : list value) : M A :=
  match args with
  | [a; b; c; d] => f a b c d
  | _ => raise (TypeError (name ++ "() takes exactly 5 arguments ("
                           ++ pretty (S (length args)) ++ " given)"))
  end.

(** ** class Pingdom *)

Section Pingdom.

(** The service behind the proxy: its answer to a call, given the calls
    made before it.  An answer is the value SOAPpy hands back, or the
    exception it raises. *)
Variable srv : list call -> call -> outcome value.

(** Calling the remote method [name] of the proxy with the positional
    arguments [args]: the one place where the wire is touched. *)
Definition Proxy_call (server : value) (name : string) (args : list value) : M value :=
  match server with
  | VProxy _ => fun st =>
      (srv (wire st) (name, args), State (attrs st) (wire st ++ [(name, args)]))
  | _ => raise (AttributeError name)
  end.

(** *** Properties *)

Definition loggedin : M bool :=
  sid ← getattr "_sessionid"; mret (negb (is_None sid)).

Definition username : M value :=
  credentials ← getattr "credentials"; lift (getitem credentials "username").

Definition apikey : M value := getattr "_apikey".

(** *** Internal methods *)

(** [_callWithParams]: of its variadic arguments, [args[0]] is [name] and
    [args[1:]] is [rest]. *)
Definition _callWithParams (name : string) (rest : list value) : M value :=
  server ← getattr "_server";
  param ← (if String.eqb name "Auth_login" then getattr "_credentials"
           else getattr "_sessionid");
  key ← apikey;
  Proxy_call server name (key :: param :: rest).

Definition _login : M bool :=
  r ← _callWithParams "Auth_login" [];
  '(status, sessionid) ← lift (unpack2 r);
  if py_eq status (VInt 0) then
    setattr "_sessionid" sessionid;; mret true
  else raise_PingdomException status.

Definition _logout : M bool :=
  sid ← getattr "_sessionid";
  if py_eq sid VNone then mret true
  else
    logoutResponse ← _callWithParams "Auth_logout" [];
    status ← lift (getitem logoutResponse "status");
    if py_eq status (VInt 0) then
      setattr "_sessionid" VNone;; mret true
    else raise_PingdomException status.

Definition _check_getList : M bool :=
  r ← _callWithParams "Check_getList" [];
  '(status, checklist) ← lift (unpack2 r);
  if py_eq status (VInt 0) then
    item ← lift (getitem checklist "item");
    setattr "_checks" item;; mret true
  else raise_PingdomException status.

Definition _location_getList : M bool :=
  r ← _callWithParams "Location_getList" [];
  '(status, locationlist) ← lift (unpack2 r);
  if py_eq status (VInt 0) then
    item ← lift (getitem locationlist "item");
    setattr "_locations" item;; mret true
  else raise_PingdomException status.

Definition _report_getCurrentStates : M value :=
  r ← _callWithParams "Report_getCurrentStates" [];
  '(status, states) ← lift (unpack2 r);
  if py_eq status (VInt 0) then
    states ← lift (getitem states "item");
    lift (py_map _asdict states)
  else raise_PingdomException status.

Definition _convertTime (time : value) : M value :=
  t ← lift (slice6 time); mret (VDateTime t).

Definition _report_getDowntimes (check starttime endtime resolution : value) : M value :=
  from ← _convertTime starttime;
  to ← _convertTime endtime;
  let params := VDict [ ("checkName", VStr "Communicate"); ("from", from);
                        ("to", to); ("resolution", VStr "DAILY") ] in
  r ← _callWithParams "Report_getDowntimes" [params];
  '(status, states) ← lift (unpack2 r);
  if py_eq status (VInt 0) then
    states ← lift (getitem states "item");
    lift (py_map _asdict states)
  else raise_PingdomException status.

(** *** Common properties and methods *)

Definition checks : M value :=
  c ← getattr "_checks";
  (if is_None c then _check_getList else mret true);;
  getattr "_checks".

Definition locations : M value :=
  l ← getattr "_locations";
  (if is_None l then _location_getList else mret true);;
  getattr "_locations".

Definition states : M value := _report_getCurrentStates.

Definition downtimes : M value :=
  apply4 "_report_getDowntimes" _report_getDowntimes [].

Definition downtimesFor (check starttime endtime resolution : value) : M value :=
  if py_eq starttime endtime then
    raise (ValueError "Start time and end time must be different")
  else
    known ← lift (REPORT_RESOLUTIONS_contains resolution);
    if negb known then raise (ValueError "Invalid report resolution")
    else
      cs ← checks;
      present ← lift (py_in check cs);
      if negb present then raise_PingdomException (VStr "No such check available")
      else if existsb (py_eq VNone) [check; starttime; endtime; resolution] then
        raise (TypeError "Invalid type: NoneType")
      else _report_getDowntimes check starttime endtime resolution.

Definition echo (inString : value) : M value :=
  server ← getattr "_server";
  r ← Proxy_call server "Test_echo" [inString];
  '(status, result) ← lift (unpack2 r);
  if py_eq status (VInt 0) then mret result
  else raise_PingdomException status.

(** *** Special methods *)

Definition __init__ (username password apikey : value) : M unit :=
  setattr "_credentials" (VDict [("username", username); ("password", password)]);;
  setattr "_apikey" apikey;;
  setattr "_server" (VProxy PINGDOM_WSDL);;
  setattr "_sessionid" VNone;;
  setattr "_checks" VNone;;
  setattr "_locations" VNone;;
  _login;; mret tt.

(** [__del__] calls [_logout] and has no [return]: it returns None. *)
Definition __del__ : M value := _logout;; mret VNone.

(** Disposal, as the interpreter does it when the object is collected: it
    calls [__del__], and an exception that leaves [__del__] is raised to
    no one: the interpreter prints it on [sys.stderr] and discards it.
    The value returned is what went to [sys.stderr]. *)
Definition finalize : M (list exn) := fun st =>
  match __del__ st with
  | (Return _, st') => (Return [], st')
  | (Raise e, st') => (Return [e], st')
  end.

Definition __repr__ : M value :=
  credentials ← getattr "_credentials";
  user ← lift (getitem credentials "username");
  sid ← getattr "sessionid";
  mret (VStr ("<Pingdom Instance (user:" ++ py_str user ++ ", sessionid: "
              ++ py_str sid ++ ")>")).

(** [Pingdom(username, password, apikey)]: [__init__] runs on a fresh
    instance; the caller gets the instance only if it does not raise. *)
Definition Pingdom (username password apikey : value) (w : list call)
  : outcome (gmap string value) * list call :=
  match __init__ username password apikey (State ∅ w) with
  | (Return _, st) => (Return (attrs st), wire st)
  | (Raise e, st) => (Raise e, wire st)
  end.

End Pingdom.

(** ** What the properties are stated with *)

(** The attributes [__init__] stores; no method stores any other. *)
Definition attr_names : list string :=
  ["_credentials"; "_apikey"; "_server"; "_sessionid"; "_checks"; "_locations"].

(** The instance dictionary of a constructed client. *)
Record instance (a : gmap string value) : Prop := {
  inst_server : a !! "_server" = Some (VProxy PINGDOM_WSDL);
  inst_apikey : is_Some (a !! "_apikey");
  inst_credentials : is_Some (a !! "_credentials");
  inst_sessionid : is_Some (a !! "_sessionid");
  inst_checks : is_Some (a !! "_checks");
  inst_locations : is_Some (a !! "_locations");
  inst_only : forall n, is_Some (a !! n) -> In n attr_names
}.

(** The public surface of the class. *)
Inductive op : Type :=
| Op_loggedin
| Op_username
| Op_apikey
| Op_checks
| Op_locations
| Op_states
| Op_downtimes
| Op_downtimesFor (check starttime endtime resolution : value)
| Op_echo (inString : value)
| Op_del
| Op_repr.

(** The state an operation leaves, whether it returned or raised. *)
Definition run (srv : list call -> call -> outcome value) (o : op) (st : state) : state :=
  match o with
  | Op_loggedin => snd (loggedin st)
  | Op_username => snd (username st)
  | Op_apikey => snd (apikey st)
  | Op_checks => snd (checks srv st)
  | Op_locations => snd (locations srv st)
  | Op_states => snd (states srv st)
  | Op_downtimes => snd (downtimes srv st)
  | Op_downtimesFor c s e r => snd (downtimesFor srv c s e r st)
  | Op_echo s => snd (echo srv s st)
  | Op_del => snd (__del__ srv st)
  | Op_repr => snd (__repr__ st)
  end.

(** The states a client goes through: a successful construction, then any
    operations. *)
Inductive reachable (srv : list call -> call -> outcome value) : state -> Prop :=
| reach_init (u p k : value) (w : list call) (st : state) :
    __init__ srv u p k (State ∅ w) = (Return tt, st) -> reachable srv st
| reach_op (o : op) (st : state) :
    reachable srv st -> reachable srv (run srv o st).

(** [n] accesses in a row, the caller going on after an access that
    raised. *)
Fixpoint access {A : Type} (m : M A) (n : nat) (st : state) : state :=
  match n with
  | O => st
  | S n' => access m n' (snd (m st))
  end.

Definition count_calls (name : string) (w : list call) : nat :=
  length (List.filter (fun c => String.eqb (fst c) name) w).

(** The attribute [_callWithParams] passes second. *)
Definition param_attr (name : string) : string :=
  if String.eqb name "Auth_login" then "_credentials" else "_sessionid".

(** A call built by the dispatch rule from the attributes [a]: the API key,
    then the credentials (login) or the session id (any other call), then
    the call's own arguments. *)
Definition conforming (a : gmap string value) (c : call) : Prop :=
  exists k p rest,
    a !! "_apikey" = Some k /\ a !! param_attr (fst c) = Some p /\ snd c = k :: p :: rest.

Definition frame (names : list string) (st st' : state) : Prop :=
  forall n, In n names -> attrs st' !! n = attrs st !! n.

(** From [st] to [st'], only calls built by the dispatch rule went out. *)
Definition emits (st st' : state) : Prop :=
  exists new : list call, wire st' = (wire st ++ new)%list /\ Forall (conforming (attrs st)) new.

Definition dispatches (st st' : state) : Prop :=
  frame ["_server"; "_apikey"; "_credentials"; "_sessionid"] st st' /\ emits st st'.

Definition keeps_instance (st st' : state) : Prop :=
  instance (attrs st) -> instance (attrs st').

Definition same_wire (st st' : state) : Prop := wire st' = wire st.

Definition respects (R : state -> state -> Prop) {A : Type} (m : M A) : Prop :=
  forall st, R st (snd (m st)).

(** [m] puts at most one call on the wire, and it is a call of [name]. *)
Definition calls_at_most_once (name : string) {A : Type} (m : M A) : Prop :=
  forall st, wire (snd (m st)) = wire st \/
             exists args, wire (snd (m st)) = (wire st ++ [(name, args)])%list.

(** The message [PingdomException] builds for a status of the table. *)
Definition PingdomException_message (z : Z) (meaning : string) : string :=
  "Error " ++ pretty z ++ ": " ++ meaning.

(** What [__init__] has stored when it comes to log in. *)
Definition fresh_attrs (u p k : value) : gmap string value :=
  <["_locations" := VNone]> (<["_checks" := VNone]> (<["_sessionid" := VNone]>
    (<["_server" := VProxy PINGDOM_WSDL]> (<["_apikey" := k]>
      (<["_credentials" := VDict [("username", u); ("password", p)]]> ∅))))).

Definition same_attrs (st st' : state) : Prop := attrs st' = attrs st.

(** When [m] raises, the instance dictionary is as it was before. *)
Definition raise_keeps_attrs {A : Type} (m : M A) : Prop :=
  forall st e st1, m st = (Raise e, st1) -> attrs st1 = attrs st.

(** The remote methods an operation may call. *)
Definition methods_of (o : op) : list string :=
  match o with
  | Op_checks => ["Check_getList"]
  | Op_locations => ["Location_getList"]
  | Op_states => ["Report_getCurrentStates"]
  | Op_downtimesFor _ _ _ _ => ["Check_getList"; "Report_getDowntimes"]
  | Op_echo _ => ["Test_echo"]
  | Op_del => ["Auth_logout"]
  | Op_loggedin | Op_username | Op_apikey | Op_downtimes | Op_repr => []
  end.

(** From [st] to [st'], only calls of the methods [names] went out, and at
    most one of each. *)
Definition sends (names : list string) (st st' : state) : Prop :=
  exists new : list call,
    wire st' = (wire st ++ new)%list /\
    Forall (fun c => In (fst c) names) new /\
    forall name, (count_calls name new <= 1)%nat.

(** A service for the examples: it answers a call of the method [name]
    with the status [status name]; it knows two checks and one location
    and echoes what [Test_echo] is given. *)
Module Sample.

Definition service (status : string -> Z) : list call -> call -> outcome value := fun _ c =>
  let z := VInt (status (fst c)) in
  match fst c with
  | "Auth_login" => Return (VTuple [z; VStr "session-1"])
  | "Auth_logout" => Return (VStruct [("status", z)])
  | "Check_getList" =>
      Return (VTuple [z; VStruct [("item", VList [VStr "Web"; VStr "Communicate"])]])
  | "Location_getList" =>
      Return (VTuple [z; VStruct [("item", VList [VStr "Stockholm"])]])
  | "Test_echo" =>
      match snd c with
      | [x] => Return (VTuple [z; x])
      | _ => Raise (Fault "Test_echo takes one argument")
      end
  | _ =>
      Return (VTuple [z; VStruct [("item", VList [VStruct [("checkName", VStr "Web");
                                                           ("checkState", VStr "CHECK_UP")]])]])
  end.

(** Every call succeeds. *)
Definition ok : string -> Z := fun _ => 0.

(** The calls of [name] are answered with the status [z], all others
    succeed. *)
Definition failing (name : string) (z : Z) : string -> Z := fun n =>
  if String.eqb n name then z else 0.

Definition rejecting (name : string) (z : Z) : list call -> call -> outcome value :=
  service (failing name z).

(** The state of a client constructed against [srv], with nothing on the
    wire before. *)
Definition client_of (srv : list call -> call -> outcome value) : state :=
  snd (__init__ srv (VStr "user") (VStr "secret") (VStr "KEY") (State ∅ [])).

Definition client : state := client_of (service ok).

(** Two [time.struct_time] values, as their nine fields. *)
Definition t2009 : list value :=
  [VInt 2009; VInt 1; VInt 1; VInt 0; VInt 0; VInt 0; VInt 3; VInt 1; VInt 0].

Definition t2010 : list value :=
  [VInt 2010; VInt 1; VInt 1; VInt 0; VInt 0; VInt 0; VInt 4; VInt 1; VInt 0].

(** [t2009] with another daylight-saving flag, its ninth field. *)
Definition t2009_dst : list value :=
  [VInt 2009; VInt 1; VInt 1; VInt 0; VInt 0; VInt 0; VInt 3; VInt 1; VInt 1].


End Sample.

(** * Properties *)

(** ** Running the monad *)

Lemma run_bind {A B : Type} (m : M A) (f : A -> M B) (st : state) :
  (m ≫= f) st =
  match m st with
  | (Return a, st') => f a st'
  | (Raise e, st') => (Raise e, st')
  end.
Proof. reflexivity. Qed.

Lemma run_getattr (name : string) (v : value) (st : state) :
  attrs st !! name = Some v -> getattr name st = (Return v, st).
Proof. intros H. unfold getattr. now rewrite H. Qed.

Lemma run_raise_PingdomException {A : Type} (z : Z) (meaning : string) (st : state) :
  assocZ z STATUS_CODES = Some meaning ->
  @raise_PingdomException A (VInt z) st =
    (Raise (PingdomException (VInt z) (PingdomException_message z meaning)), st).
Proof.
  intros H. unfold raise_PingdomException, PingdomException_init, STATUS_CODES_getitem.
  now rewrite H.
Qed.

Lemma run__callWithParams (srv : list call -> call -> outcome value)
    (name : string) (rest : list value) (st : state) (w : string) (k p : value) :
  attrs st !! "_server" = Some (VProxy w) ->
  attrs st !! "_apikey" = Some k ->
  attrs st !! param_attr name = Some p ->
  _callWithParams srv name rest st =
    (srv (wire st) (name, k :: p :: rest),
     State (attrs st) (wire st ++ [(name, k :: p :: rest)])).
Proof.
  intros Hs Hk Hp. unfold _callWithParams, apikey.
  rewrite run_bind, (run_getattr _ _ _ Hs), run_bind.
  unfold param_attr in Hp. destruct (String.eqb name "Auth_login");
    rewrite (run_getattr _ _ _ Hp), run_bind, (run_getattr _ _ _ Hk); reflexivity.
Qed.

Lemma run___del__ (srv : list call -> call -> outcome value) (st : state) :
  __del__ srv st =
    match _logout srv st with
    | (Return _, st') => (Return VNone, st')
    | (Raise e, st') => (Raise e, st')
    end.
Proof. reflexivity. Qed.

Lemma snd___del__ (srv : list call -> call -> outcome value) (st : state) :
  snd (__del__ srv st) = snd (_logout srv st).
Proof. rewrite run___del__. destruct (_logout srv st) as [[b | e] st']; reflexivity. Qed.

(** ** Relations kept by every step of a method *)

Section Respects.

Variable R : state -> state -> Prop.
Hypothesis R_refl : forall st, R st st.
Hypothesis R_trans : forall a b c, R a b -> R b c -> R a c.

Lemma respects_ret {A : Type} (a : A) : respects R (mret a).
Proof. intros st. apply R_refl. Qed.

Lemma respects_raise {A : Type} (e : exn) : respects R (@raise A e).
Proof. intros st. apply R_refl. Qed.

Lemma respects_lift {A : Type} (o : outcome A) : respects R (lift o).
Proof. intros st. apply R_refl. Qed.

Lemma respects_getattr (name : string) : respects R (getattr name).
Proof. intros st. unfold getattr. destruct (attrs st !! name); apply R_refl. Qed.

Lemma respects_bind {A B : Type} (m : M A) (f : A -> M B) :
  respects R m -> (forall a, respects R (f a)) -> respects R (m ≫= f).
Proof.
  intros Hm Hf st. rewrite run_bind. specialize (Hm st).
  destruct (m st) as [[a | e] st']; simpl in *.
  - eapply R_trans; [exact Hm | apply Hf].
  - exact Hm.
Qed.

Lemma respects_raise_PingdomException {A : Type} (status : value) :
  respects R (@raise_PingdomException A status).
Proof.
  unfold raise_PingdomException.
  destruct (PingdomException_init status); apply respects_raise.
Qed.

End Respects.

Create HintDb respects.

(** One step through a method's body; lemmas already proved about the
    methods it calls are taken from the hint database. *)
Ltac respects_step :=
  first
    [ solve [auto with respects]
    | apply respects_ret; assumption
    | apply respects_raise; assumption
    | apply respects_lift; assumption
    | apply respects_getattr; assumption
    | apply respects_raise_PingdomException; assumption
    | progress cbn beta
    | apply respects_bind; [assumption | | intros ?]
    | match goal with
      | |- respects _ (if ?b then _ else _) => destruct b
      | |- respects _ (let '(_, _) := ?p in _) => destruct p
      end ].

Section Methods.

Variable srv : list call -> call -> outcome value.
Variable R : state -> state -> Prop.
Hypothesis R_refl : forall st, R st st.
Hypothesis R_trans : forall a b c, R a b -> R b c -> R a c.
Hypothesis R_sessionid : forall v, respects R (setattr "_sessionid" v).
Hypothesis R_checks : forall v, respects R (setattr "_checks" v).
Hypothesis R_locations : forall v, respects R (setattr "_locations" v).
Hypothesis R_call : forall name rest, respects R (_callWithParams srv name rest).
Hypothesis R_proxy : forall server name args, respects R (Proxy_call srv server name args).

Lemma respects_loggedin : respects R loggedin.
Proof. unfold loggedin. repeat respects_step. Qed.

Lemma respects_username : respects R username.
Proof. unfold username. repeat respects_step. Qed.

Lemma respects_apikey : respects R apikey.
Proof. unfold apikey. repeat respects_step. Qed.

Lemma respects___repr__ : respects R __repr__.
Proof. unfold __repr__. repeat respects_step. Qed.

Lemma respects__login : respects R (_login srv).
Proof. unfold _login. repeat respects_step. Qed.

Lemma respects__logout : respects R (_logout srv).
Proof. unfold _logout. repeat respects_step. Qed.

Lemma respects__check_getList : respects R (_check_getList srv).
Proof. unfold _check_getList. repeat respects_step. Qed.

Lemma respects__location_getList : respects R (_location_getList srv).
Proof. unfold _location_getList. repeat respects_step. Qed.

Lemma respects__report_getCurrentStates : respects R (_report_getCurrentStates srv).
Proof. unfold _report_getCurrentStates. repeat respects_step. Qed.

Lemma respects__report_getDowntimes (check starttime endtime resolution : value) :
  respects R (_report_getDowntimes srv check starttime endtime resolution).
Proof. unfold _report_getDowntimes, _convertTime. repeat respects_step. Qed.

#[local] Hint Resolve respects__login respects__logout respects__check_getList
  respects__location_getList respects__report_getCurrentStates
  respects__report_getDowntimes : respects.

Lemma respects_checks : respects R (checks srv).
Proof. unfold checks. repeat respects_step. Qed.

Lemma respects_locations : respects R (locations srv).
Proof. unfold locations. repeat respects_step. Qed.

Lemma respects_states : respects R (states srv).
Proof. unfold states. repeat respects_step. Qed.

Lemma respects_downtimes : respects R (downtimes srv).
Proof. unfold downtimes, apply4. repeat respects_step. Qed.

#[local] Hint Resolve respects_checks : respects.

Lemma respects_downtimesFor (check starttime endtime resolution : value) :
  respects R (downtimesFor srv check starttime endtime resolution).
Proof. unfold downtimesFor. repeat respects_step. Qed.

Lemma respects_echo (inString : value) : respects R (echo srv inString).
Proof. unfold echo. repeat respects_step. Qed.

Lemma respects___del__ : respects R (__del__ srv).
Proof. unfold __del__. repeat respects_step. Qed.

(** Every public operation keeps a relation that its steps keep. *)
Lemma respects_run (o : op) (st : state) : R st (run srv o st).
Proof.
  destruct o; simpl.
  - apply respects_loggedin.
  - apply respects_username.
  - apply respects_apikey.
  - apply respects_checks.
  - apply respects_locations.
  - apply respects_states.
  - apply respects_downtimes.
  - apply respects_downtimesFor.
  - apply respects_echo.
  - apply respects___del__.
  - apply respects___repr__.
Qed.

End Methods.

(** ** The instance dictionary *)

Lemma instance_insert (a : gmap string value) (n : string) (v : value) :
  In n ["_sessionid"; "_checks"; "_locations"] ->
  instance a -> instance (<[n := v]> a).
Proof.
  intros Hn [Hs Hk Hc Hi Hch Hl Honly].
  assert (Hin : In n attr_names) by (unfold attr_names; simpl in *; tauto).
  assert (Hne : n <> "_server") by (simpl in Hn; intros ->; intuition discriminate).
  split.
  - rewrite lookup_insert_ne; assumption.
  - rewrite lookup_insert. case_decide; eauto.
  - rewrite lookup_insert. case_decide; eauto.
  - rewrite lookup_insert. case_decide; eauto.
  - rewrite lookup_insert. case_decide; eauto.
  - rewrite lookup_insert. case_decide; eauto.
  - intros m. rewrite lookup_insert. case_decide; [intros _; subst; assumption | apply Honly].
Qed.

Lemma keeps_instance_refl (st : state) : keeps_instance st st.
Proof. intros H. exact H. Qed.

Lemma keeps_instance_trans (a b c : state) :
  keeps_instance a b -> keeps_instance b c -> keeps_instance a c.
Proof. unfold keeps_instance. auto. Qed.

Lemma keeps_instance_setattr (n : string) (v : value) :
  In n ["_sessionid"; "_checks"; "_locations"] ->
  respects keeps_instance (setattr n v).
Proof. intros Hn st Hst. simpl. apply instance_insert; assumption. Qed.

Lemma keeps_instance_Proxy_call (srv : list call -> call -> outcome value)
    (server : value) (name : string) (args : list value) :
  respects keeps_instance (Proxy_call srv server name args).
Proof. intros st Hst. destruct server; exact Hst. Qed.

Lemma keeps_instance__callWithParams (srv : list call -> call -> outcome value)
    (name : string) (rest : list value) :
  respects keeps_instance (_callWithParams srv name rest).
Proof.
  unfold _callWithParams, apikey.
  pose proof keeps_instance_refl. pose proof keeps_instance_trans.
  pose proof (keeps_instance_Proxy_call srv).
  repeat respects_step.
Qed.

(** Every operation leaves the instance dictionary that of a client. *)
Lemma run_instance (srv : list call -> call -> outcome value) (o : op) (st : state) :
  instance (attrs st) -> instance (attrs (run srv o st)).
Proof.
  apply (respects_run srv keeps_instance).
  - apply keeps_instance_refl.
  - apply keeps_instance_trans.
  - intros v. apply keeps_instance_setattr. simpl. tauto.
  - intros v. apply keeps_instance_setattr. simpl. tauto.
  - intros v. apply keeps_instance_setattr. simpl. tauto.
  - apply keeps_instance__callWithParams.
  - apply keeps_instance_Proxy_call.
Qed.

Lemma fresh_attrs_instance (u p k : value) : instance (fresh_attrs u p k).
Proof.
  unfold fresh_attrs. split; try (eexists; reflexivity); try reflexivity.
  intros n. rewrite !lookup_insert. unfold attr_names.
  repeat (case_decide; [subst; simpl; tauto |]).
  rewrite lookup_empty. intros [x Hx]. discriminate.
Qed.

Lemma run___init__ (srv : list call -> call -> outcome value) (u p k : value)
    (w : list call) :
  __init__ srv u p k (State ∅ w) =
    match _login srv (State (fresh_attrs u p k) w) with
    | (Return _, st) => (Return tt, st)
    | (Raise e, st) => (Raise e, st)
    end.
Proof. reflexivity. Qed.

Lemma __init___instance (srv : list call -> call -> outcome value) (u p k : value)
    (w : list call) :
  instance (attrs (snd (__init__ srv u p k (State ∅ w)))).
Proof.
  rewrite run___init__.
  assert (H : instance (attrs (snd (_login srv (State (fresh_attrs u p k) w))))).
  { apply (respects__login srv keeps_instance).
    - apply keeps_instance_refl.
    - apply keeps_instance_trans.
    - intros v. apply keeps_instance_setattr. simpl. tauto.
    - apply keeps_instance__callWithParams.
    - simpl. apply fresh_attrs_instance. }
  destruct (_login srv (State (fresh_attrs u p k) w)) as [[b | e] st]; exact H.
Qed.

Lemma reachable_instance (srv : list call -> call -> outcome value) (st : state) :
  reachable srv st -> instance (attrs st).
Proof.
  induction 1 as [u p k w st Hinit | o st _ IH].
  - pose proof (__init___instance srv u p k w) as H. rewrite Hinit in H. exact H.
  - apply run_instance. exact IH.
Qed.

(** C10: reading the [username] property of a client always raises
    AttributeError: it reads [self.credentials], and the constructor and
    the methods only ever store [_credentials] (and five other names, none
    of them [credentials]). *)
Theorem username_raises_AttributeError (srv : list call -> call -> outcome value)
    (st : state) :
  reachable srv st -> username st = (Raise (AttributeError "credentials"), st).
Proof.
  intros Hr. apply reachable_instance in Hr.
  unfold username. rewrite run_bind. unfold getattr.
  destruct (attrs st !! "credentials") as [v |] eqn:Hv; [| reflexivity].
  exfalso. assert (Hin : In "credentials" attr_names).
  { apply (inst_only _ Hr). eauto. }
  unfold attr_names in Hin. simpl in Hin. intuition discriminate.
Qed.

Lemma username_raises_AttributeError_witness :
  reachable (Sample.service Sample.ok)
    (run (Sample.service Sample.ok) Op_checks Sample.client) /\
  username (run (Sample.service Sample.ok) Op_checks Sample.client) =
    (Raise (AttributeError "credentials"),
     run (Sample.service Sample.ok) Op_checks Sample.client).
Proof.
  assert (H : reachable (Sample.service Sample.ok)
                (run (Sample.service Sample.ok) Op_checks Sample.client)).
  { apply reach_op.
    apply (reach_init _ (VStr "user") (VStr "secret") (VStr "KEY") []). reflexivity. }
  split; [exact H |].
  exact (username_raises_AttributeError (Sample.service Sample.ok) _ H).
Defined.

(** C9: [downtimes()] raises TypeError on every state and leaves the
    state, hence the wire, as it was: it calls [_report_getDowntimes],
    which takes four arguments besides [self], with none. *)
Theorem downtimes_raises_TypeError (srv : list call -> call -> outcome value)
    (st : state) :
  downtimes srv st =
    (Raise (TypeError "_report_getDowntimes() takes exactly 5 arguments (1 given)"), st).
Proof. reflexivity. Qed.

(** ** Attributes a method leaves alone *)

Lemma frame_refl (names : list string) (st : state) : frame names st st.
Proof. intros n _. reflexivity. Qed.

Lemma frame_trans (names : list string) (a b c : state) :
  frame names a b -> frame names b c -> frame names a c.
Proof. intros Hab Hbc n Hn. rewrite (Hbc n Hn). apply Hab, Hn. Qed.

Lemma frame_setattr (names : list string) (n : string) (v : value) :
  ~ In n names -> respects (frame names) (setattr n v).
Proof.
  intros Hn st m Hm. simpl. apply lookup_insert_ne. intros ->. contradiction.
Qed.

Lemma frame_Proxy_call (srv : list call -> call -> outcome value) (names : list string)
    (server : value) (name : string) (args : list value) :
  respects (frame names) (Proxy_call srv server name args).
Proof. intros st. destruct server; intros n _; reflexivity. Qed.

Lemma frame__callWithParams (srv : list call -> call -> outcome value)
    (names : list string) (name : string) (rest : list value) :
  respects (frame names) (_callWithParams srv name rest).
Proof.
  unfold _callWithParams, apikey.
  pose proof (frame_refl names). pose proof (frame_trans names).
  pose proof (frame_Proxy_call srv names).
  repeat respects_step.
Qed.

Lemma checks_frame (srv : list call -> call -> outcome value) (names : list string) :
  ~ In "_checks" names -> respects (frame names) (checks srv).
Proof.
  intros Hn. apply respects_checks.
  - apply frame_refl.
  - apply frame_trans.
  - intros v. apply frame_setattr, Hn.
  - apply frame__callWithParams.
Qed.

Lemma locations_frame (srv : list call -> call -> outcome value) (names : list string) :
  ~ In "_locations" names -> respects (frame names) (locations srv).
Proof.
  intros Hn. apply respects_locations.
  - apply frame_refl.
  - apply frame_trans.
  - intros v. apply frame_setattr, Hn.
  - apply frame__callWithParams.
Qed.

(** ** Calls built by the dispatch rule *)

Lemma conforming_frame (st st' : state) (c : call) :
  frame ["_server"; "_apikey"; "_credentials"; "_sessionid"] st st' ->
  conforming (attrs st') c -> conforming (attrs st) c.
Proof.
  intros Hf (k & p & rest & Hk & Hp & Hc). exists k, p, rest.
  rewrite <- (Hf "_apikey"), <- (Hf (param_attr (fst c))); [tauto | |].
  - unfold param_attr. destruct (String.eqb (fst c) "Auth_login"); simpl; tauto.
  - simpl. tauto.
Qed.

Lemma dispatches_refl (st : state) : dispatches st st.
Proof.
  split; [apply frame_refl |]. exists []. split; [symmetry; apply app_nil_r | constructor].
Qed.

Lemma dispatches_trans (a b c : state) :
  dispatches a b -> dispatches b c -> dispatches a c.
Proof.
  intros [Fab (n1 & W1 & C1)] [Fbc (n2 & W2 & C2)]. split.
  - eapply frame_trans; eassumption.
  - exists (n1 ++ n2)%list. split.
    + rewrite W2, W1. symmetry. apply app_assoc.
    + apply Forall_app. split; [exact C1 |].
      eapply Forall_impl; [exact C2 |]. intros x. apply conforming_frame, Fab.
Qed.

Lemma dispatches_same_wire (st st' : state) :
  frame ["_server"; "_apikey"; "_credentials"; "_sessionid"] st st' ->
  wire st' = wire st -> dispatches st st'.
Proof.
  intros Hf Hw. split; [exact Hf |]. exists []. split; [| constructor].
  rewrite Hw. symmetry. apply app_nil_r.
Qed.

Lemma dispatches_setattr (n : string) (v : value) :
  In n ["_checks"; "_locations"] -> respects dispatches (setattr n v).
Proof.
  intros Hn st. apply dispatches_same_wire; [| reflexivity].
  apply frame_setattr. simpl in *. intuition (subst; discriminate).
Qed.

Lemma dispatches__callWithParams (srv : list call -> call -> outcome value)
    (name : string) (rest : list value) :
  respects dispatches (_callWithParams srv name rest).
Proof.
  intros st. unfold _callWithParams, apikey. rewrite run_bind. unfold getattr at 1.
  destruct (attrs st !! "_server") as [server |]; [| apply dispatches_refl].
  rewrite run_bind.
  assert (Hp : (if String.eqb name "Auth_login" then getattr "_credentials"
                else getattr "_sessionid") = getattr (param_attr name)).
  { unfold param_attr. destruct (String.eqb name "Auth_login"); reflexivity. }
  rewrite Hp. unfold getattr at 1.
  destruct (attrs st !! param_attr name) as [p |] eqn:Ep; [| apply dispatches_refl].
  rewrite run_bind. unfold getattr.
  destruct (attrs st !! "_apikey") as [k |] eqn:Ek; [| apply dispatches_refl].
  destruct server; try apply dispatches_refl. simpl.
  split; [intros n _; reflexivity |]. exists [(name, k :: p :: rest)]. split; [reflexivity |].
  constructor; [| constructor]. exists k, p, rest. auto.
Qed.

(** ** Construction *)

Lemma py_eq_VInt (x y : Z) : py_eq (VInt x) (VInt y) = Z.eqb x y.
Proof. reflexivity. Qed.

Lemma fresh_attrs_lookups (u p k : value) :
  fresh_attrs u p k !! "_server" = Some (VProxy PINGDOM_WSDL) /\
  fresh_attrs u p k !! "_apikey" = Some k /\
  fresh_attrs u p k !! "_credentials" = Some (VDict [("username", u); ("password", p)]).
Proof. repeat split; reflexivity. Qed.

Lemma run__login_fresh (srv : list call -> call -> outcome value) (u p k : value)
    (w : list call) :
  let c := ("Auth_login", [k; VDict [("username", u); ("password", p)]]) in
  _login srv (State (fresh_attrs u p k) w) =
    match srv w c with
    | Raise e => (Raise e, State (fresh_attrs u p k) (w ++ [c]))
    | Return r =>
        match unpack2 r with
        | Raise e => (Raise e, State (fresh_attrs u p k) (w ++ [c]))
        | Return (status, sessionid) =>
            if py_eq status (VInt 0) then
              (Return true, State (<["_sessionid" := sessionid]> (fresh_attrs u p k)) (w ++ [c]))
            else raise_PingdomException status (State (fresh_attrs u p k) (w ++ [c]))
        end
    end.
Proof.
  intros c. destruct (fresh_attrs_lookups u p k) as (Hs & Hk & Hc).
  unfold _login. rewrite run_bind.
  rewrite (run__callWithParams srv "Auth_login" [] (State (fresh_attrs u p k) w) _ _ _ Hs Hk Hc).
  simpl wire. simpl attrs. fold c.
  destruct (srv w c) as [r | e]; [| reflexivity].
  rewrite run_bind. unfold lift. destruct (unpack2 r) as [[status sessionid] | e]; [| reflexivity].
  destruct (py_eq status (VInt 0)); reflexivity.
Qed.

(** C5: constructing a client sends exactly one remote call,
    [Auth_login] with the API key and the credentials.  The service
    answering with one of its status codes (those of [STATUS_CODES]) and a
    session id: on status 0 the caller gets a client whose [_sessionid] is
    the id returned, so that the client is logged in; on any other status
    the constructor raises the [PingdomException] of that status and the
    caller gets no client. *)
Theorem Pingdom_login (srv : list call -> call -> outcome value) (u p k : value)
    (w : list call) :
  let c := ("Auth_login", [k; VDict [("username", u); ("password", p)]]) in
  snd (Pingdom srv u p k w) = (w ++ [c])%list /\
  forall (z : Z) (sid : value) (meaning : string),
    srv w c = Return (VTuple [VInt z; sid]) ->
    assocZ z STATUS_CODES = Some meaning ->
    (z = 0 -> is_None sid = false ->
     exists a, fst (Pingdom srv u p k w) = Return a /\
               a !! "_sessionid" = Some sid /\
               loggedin (State a (w ++ [c])) = (Return true, State a (w ++ [c])) /\
               instance a) /\
    (z <> 0 ->
     fst (Pingdom srv u p k w) =
       Raise (PingdomException (VInt z) (PingdomException_message z meaning))).
Proof.
  intros c. unfold Pingdom. rewrite run___init__.
  pose proof (run__login_fresh srv u p k w) as Hl. cbv zeta in Hl. fold c in Hl.
  rewrite Hl. clear Hl. split.
  - destruct (srv w c) as [r | e]; [| reflexivity].
    destruct (unpack2 r) as [[status sessionid] | e]; [| reflexivity].
    destruct (py_eq status (VInt 0)); [reflexivity |].
    unfold raise_PingdomException.
    destruct (PingdomException_init status); reflexivity.
  - intros z sid meaning Hr Hm. rewrite Hr.
    change (unpack2 (VTuple [VInt z; sid])) with (Return (VInt z, sid)).
    cbv iota beta. split.
    + intros -> Hsid. simpl. eexists. split; [reflexivity |]. split; [| split].
      * apply lookup_insert_eq.
      * unfold loggedin. rewrite run_bind.
        rewrite (run_getattr "_sessionid" sid); [| simpl; apply lookup_insert_eq].
        rewrite Hsid. reflexivity.
      * apply instance_insert; [simpl; tauto | apply fresh_attrs_instance].
    + intros Hz. apply Z.eqb_neq in Hz.
      rewrite py_eq_VInt, Hz, (run_raise_PingdomException z meaning _ Hm). reflexivity.
Qed.

Lemma Pingdom_login_witness :
  (exists a,
     fst (Pingdom (Sample.service Sample.ok) (VStr "user") (VStr "secret") (VStr "KEY") [])
       = Return a /\
     a !! "_sessionid" = Some (VStr "session-1")) /\
  fst (Pingdom (Sample.rejecting "Auth_login" 5) (VStr "user") (VStr "secret") (VStr "KEY") []) =
    Raise (PingdomException (VInt 5) "Error 5: Wrong Identification").
Proof.
  split.
  - destruct (proj1 (proj2 (Pingdom_login (Sample.service Sample.ok) (VStr "user")
                              (VStr "secret") (VStr "KEY") [])
                       0 (VStr "session-1") "OK" eq_refl eq_refl) eq_refl eq_refl)
      as (a & Ha & Hsid & _).
    exists a. split; [exact Ha | exact Hsid].
  - refine (proj2 (proj2 (Pingdom_login (Sample.rejecting "Auth_login" 5) (VStr "user")
                            (VStr "secret") (VStr "KEY") [])
                     5 (VStr "session-1") "Wrong Identification" eq_refl eq_refl) _).
    lia.
Defined.

(** ** Current states *)

Lemma py_map__asdict (rows : list (list (string * value))) :
  py_map _asdict (VList (map VStruct rows)) = Return (VList (map VDict rows)).
Proof.
  unfold py_map, py_iter.
  assert (H : map_outcome _asdict (map VStruct rows) = Return (map VDict rows)).
  { induction rows as [| r rows IH]; [reflexivity |]. simpl. rewrite IH. reflexivity. }
  rewrite H. reflexivity.
Qed.

Lemma count_calls_app (name : string) (w1 w2 : list call) :
  count_calls name (w1 ++ w2) = (count_calls name w1 + count_calls name w2)%nat.
Proof. unfold count_calls. rewrite List.filter_app. apply length_app. Qed.

Lemma count_calls_repeat (name : string) (args : list value) (n : nat) :
  count_calls name (repeat (name, args) n) = n.
Proof.
  induction n as [| n IH]; [reflexivity |].
  change (repeat (name, args) (S n)) with ([(name, args)] ++ repeat (name, args) n)%list.
  rewrite count_calls_app, IH. unfold count_calls.
  cbn [List.filter fst]. rewrite String.eqb_refl. reflexivity.
Qed.

Lemma run_states (srv : list call -> call -> outcome value) (st : state)
    (w : string) (k sid : value) :
  attrs st !! "_server" = Some (VProxy w) ->
  attrs st !! "_apikey" = Some k ->
  attrs st !! "_sessionid" = Some sid ->
  let c := ("Report_getCurrentStates", [k; sid]) in
  let st' := State (attrs st) (wire st ++ [c]) in
  states srv st =
    match srv (wire st) c with
    | Raise e => (Raise e, st')
    | Return r =>
        match unpack2 r with
        | Raise e => (Raise e, st')
        | Return (status, payload) =>
            if py_eq status (VInt 0) then
              match getitem payload "item" with
              | Raise e => (Raise e, st')
              | Return items => (py_map _asdict items, st')
              end
            else raise_PingdomException status st'
        end
    end.
Proof.
  intros Hs Hk Hi c st'. unfold states, _report_getCurrentStates.
  rewrite run_bind, (run__callWithParams srv "Report_getCurrentStates" [] st w k sid Hs Hk Hi). fold c. fold st'.
  destruct (srv (wire st) c) as [r | e]; [| reflexivity].
  rewrite run_bind. unfold lift. destruct (unpack2 r) as [[status payload] | e]; [| reflexivity].
  destruct (py_eq status (VInt 0)); [| reflexivity].
  rewrite run_bind. destruct (getitem payload "item"); reflexivity.
Qed.

Lemma snd_states (srv : list call -> call -> outcome value) (st : state)
    (w : string) (k sid : value) :
  attrs st !! "_server" = Some (VProxy w) ->
  attrs st !! "_apikey" = Some k ->
  attrs st !! "_sessionid" = Some sid ->
  snd (states srv st) = State (attrs st) (wire st ++ [("Report_getCurrentStates", [k; sid])]).
Proof.
  intros Hs Hk Hi. rewrite (run_states srv st w k sid Hs Hk Hi).
  destruct (srv _ _) as [r | e]; [| reflexivity].
  destruct (unpack2 r) as [[status payload] | e]; [| reflexivity].
  destruct (py_eq status (VInt 0)).
  - destruct (getitem payload "item"); reflexivity.
  - unfold raise_PingdomException. destruct (PingdomException_init status); reflexivity.
Qed.

Lemma access_states (srv : list call -> call -> outcome value) (n : nat) (st : state)
    (w : string) (k sid : value) :
  attrs st !! "_server" = Some (VProxy w) ->
  attrs st !! "_apikey" = Some k ->
  attrs st !! "_sessionid" = Some sid ->
  access (states srv) n st =
    State (attrs st) (wire st ++ repeat ("Report_getCurrentStates", [k; sid]) n).
Proof.
  revert st. induction n as [| n IH]; intros st Hs Hk Hi.
  - simpl. rewrite app_nil_r. destruct st; reflexivity.
  - simpl access. rewrite (snd_states srv st w k sid Hs Hk Hi).
    rewrite IH by assumption. simpl. rewrite <- app_assoc. reflexivity.
Qed.

(** C8: [n] accesses to [states] put exactly [n]
    [Report_getCurrentStates] calls on the wire (nothing is cached).  An
    access answered with status 0 returns the records of the result's
    [item], each converted to a dict; an access answered with any other
    of the service's status codes (those of [STATUS_CODES]) raises the
    [PingdomException] of that status. *)
Theorem states_fresh_call (srv : list call -> call -> outcome value) (st : state)
    (w : string) (k sid : value) :
  attrs st !! "_server" = Some (VProxy w) ->
  attrs st !! "_apikey" = Some k ->
  attrs st !! "_sessionid" = Some sid ->
  let c := ("Report_getCurrentStates", [k; sid]) in
  (forall n : nat,
     wire (access (states srv) n st) = (wire st ++ repeat c n)%list /\
     count_calls "Report_getCurrentStates" (wire (access (states srv) n st)) =
       (count_calls "Report_getCurrentStates" (wire st) + n)%nat) /\
  (forall (z : Z) (payload : value),
     srv (wire st) c = Return (VTuple [VInt z; payload]) ->
     (forall rows, z = 0 -> getitem payload "item" = Return (VList (map VStruct rows)) ->
        fst (states srv st) = Return (VList (map VDict rows))) /\
     (forall meaning, z <> 0 -> assocZ z STATUS_CODES = Some meaning ->
        fst (states srv st) =
          Raise (PingdomException (VInt z) (PingdomException_message z meaning)))).
Proof.
  intros Hs Hk Hi c. split.
  - intros n. rewrite (access_states srv n st w k sid Hs Hk Hi). simpl wire. fold c.
    split; [reflexivity |]. rewrite count_calls_app. f_equal. apply count_calls_repeat.
  - intros z payload Hr. rewrite (run_states srv st w k sid Hs Hk Hi). fold c. rewrite Hr.
    change (unpack2 (VTuple [VInt z; payload])) with (Return (VInt z, payload)).
    cbv iota beta. rewrite py_eq_VInt. split.
    + intros rows -> Hitem. simpl. rewrite Hitem, py_map__asdict. reflexivity.
    + intros meaning Hz Hm. apply Z.eqb_neq in Hz.
      rewrite Hz, (run_raise_PingdomException z meaning _ Hm). reflexivity.
Qed.

Lemma states_fresh_call_witness :
  wire (access (states (Sample.service Sample.ok)) 3 Sample.client) =
    (wire Sample.client
       ++ repeat ("Report_getCurrentStates", [VStr "KEY"; VStr "session-1"]) 3)%list /\
  fst (states (Sample.service Sample.ok) Sample.client) =
    Return (VList [VDict [("checkName", VStr "Web"); ("checkState", VStr "CHECK_UP")]]).
Proof.
  pose proof (states_fresh_call (Sample.service Sample.ok) Sample.client PINGDOM_WSDL
                (VStr "KEY") (VStr "session-1") eq_refl eq_refl eq_refl) as [Hn Hr].
  split.
  - exact (proj1 (Hn 3%nat)).
  - refine (proj1 (Hr 0 _ eq_refl)
              [[("checkName", VStr "Web"); ("checkState", VStr "CHECK_UP")]] eq_refl eq_refl).
Defined.

(** ** Logging out *)

Lemma run__logout (srv : list call -> call -> outcome value) (st : state)
    (w : string) (k sid : value) :
  attrs st !! "_server" = Some (VProxy w) ->
  attrs st !! "_apikey" = Some k ->
  attrs st !! "_sessionid" = Some sid ->
  py_eq sid VNone = false ->
  let c := ("Auth_logout", [k; sid]) in
  let st' := State (attrs st) (wire st ++ [c]) in
  _logout srv st =
    match srv (wire st) c with
    | Raise e => (Raise e, st')
    | Return logoutResponse =>
        match getitem logoutResponse "status" with
        | Raise e => (Raise e, st')
        | Return status =>
            if py_eq status (VInt 0) then
              (Return true, State (<["_sessionid" := VNone]> (attrs st)) (wire st ++ [c]))
            else raise_PingdomException status st'
        end
    end.
Proof.
  intros Hs Hk Hi Hsid c st'. unfold _logout.
  rewrite run_bind, (run_getattr _ _ _ Hi), Hsid.
  rewrite run_bind, (run__callWithParams srv "Auth_logout" [] st w k sid Hs Hk Hi).
  fold c. fold st'.
  destruct (srv (wire st) c) as [r | e]; [| reflexivity].
  rewrite run_bind. unfold lift. destruct (getitem r "status") as [status | e]; [| reflexivity].
  destruct (py_eq status (VInt 0)); reflexivity.
Qed.

Lemma run___del___logged_in (srv : list call -> call -> outcome value) (st : state)
    (w : string) (k sid : value) :
  attrs st !! "_server" = Some (VProxy w) ->
  attrs st !! "_apikey" = Some k ->
  attrs st !! "_sessionid" = Some sid ->
  py_eq sid VNone = false ->
  let c := ("Auth_logout", [k; sid]) in
  let st' := State (attrs st) (wire st ++ [c]) in
  __del__ srv st =
    match srv (wire st) c with
    | Raise e => (Raise e, st')
    | Return logoutResponse =>
        match getitem logoutResponse "status" with
        | Raise e => (Raise e, st')
        | Return status =>
            if py_eq status (VInt 0) then
              (Return VNone, State (<["_sessionid" := VNone]> (attrs st)) (wire st ++ [c]))
            else raise_PingdomException status st'
        end
    end.
Proof.
  intros Hs Hk Hi Hsid c st'.
  rewrite run___del__, (run__logout srv st w k sid Hs Hk Hi Hsid). fold c. fold st'.
  destruct (srv (wire st) c) as [r | e]; [| reflexivity].
  destruct (getitem r "status") as [status | e]; [| reflexivity].
  destruct (py_eq status (VInt 0)); [reflexivity |].
  unfold raise_PingdomException. destruct (PingdomException_init status); reflexivity.
Qed.

(** C3: disposal of a client holding a session id sends exactly one
    remote call, [Auth_logout], and whatever the service answers it
    raises nothing to anyone.  When the logout is answered with a non-zero
    status, [__del__] raises (the [PingdomException] of the status, for a
    status of [STATUS_CODES]); disposal completes all the same, and the
    exception is what it reports on [sys.stderr], the session id staying
    in place. *)
Theorem disposal_logs_out_once (srv : list call -> call -> outcome value) (st : state)
    (w : string) (k sid : value) :
  attrs st !! "_server" = Some (VProxy w) ->
  attrs st !! "_apikey" = Some k ->
  attrs st !! "_sessionid" = Some sid ->
  py_eq sid VNone = false ->
  let c := ("Auth_logout", [k; sid]) in
  wire (snd (finalize srv st)) = (wire st ++ [c])%list /\
  (exists report, fst (finalize srv st) = Return report) /\
  forall (z : Z) (logoutResponse : value),
    srv (wire st) c = Return logoutResponse ->
    getitem logoutResponse "status" = Return (VInt z) ->
    z <> 0 ->
    exists e,
      __del__ srv st = (Raise e, State (attrs st) (wire st ++ [c])) /\
      finalize srv st = (Return [e], State (attrs st) (wire st ++ [c])) /\
      (forall meaning, assocZ z STATUS_CODES = Some meaning ->
         e = PingdomException (VInt z) (PingdomException_message z meaning)).
Proof.
  intros Hs Hk Hi Hsid c. unfold finalize.
  rewrite (run___del___logged_in srv st w k sid Hs Hk Hi Hsid). fold c.
  split; [| split].
  - destruct (srv (wire st) c) as [r | e]; [| reflexivity].
    destruct (getitem r "status") as [status | e]; [| reflexivity].
    destruct (py_eq status (VInt 0)); [reflexivity |].
    unfold raise_PingdomException. destruct (PingdomException_init status); reflexivity.
  - destruct (srv (wire st) c) as [r | e]; [| eexists; reflexivity].
    destruct (getitem r "status") as [status | e]; [| eexists; reflexivity].
    destruct (py_eq status (VInt 0)); [eexists; reflexivity |].
    unfold raise_PingdomException.
    destruct (PingdomException_init status); eexists; reflexivity.
  - intros z r Hr Hstatus Hz. rewrite Hr, Hstatus, py_eq_VInt.
    apply Z.eqb_neq in Hz. rewrite Hz.
    destruct (assocZ z STATUS_CODES) as [meaning |] eqn:Hm.
    + rewrite (run_raise_PingdomException z meaning _ Hm). eexists.
      split; [reflexivity |]. split; [reflexivity |]. intros m [= <-]. reflexivity.
    + unfold raise_PingdomException, PingdomException_init, STATUS_CODES_getitem.
      rewrite Hm. eexists. split; [reflexivity |]. split; [reflexivity |]. discriminate.
Qed.

Lemma disposal_logs_out_once_witness :
  wire (snd (finalize (Sample.rejecting "Auth_logout" 5)
               (Sample.client_of (Sample.rejecting "Auth_logout" 5)))) =
    (wire (Sample.client_of (Sample.rejecting "Auth_logout" 5))
       ++ [("Auth_logout", [VStr "KEY"; VStr "session-1"])])%list /\
  finalize (Sample.rejecting "Auth_logout" 5)
      (Sample.client_of (Sample.rejecting "Auth_logout" 5)) =
    (Return [PingdomException (VInt 5) "Error 5: Wrong Identification"],
     State (attrs (Sample.client_of (Sample.rejecting "Auth_logout" 5)))
       (wire (Sample.client_of (Sample.rejecting "Auth_logout" 5))
          ++ [("Auth_logout", [VStr "KEY"; VStr "session-1"])])).
Proof.
  pose proof (disposal_logs_out_once (Sample.rejecting "Auth_logout" 5)
                (Sample.client_of (Sample.rejecting "Auth_logout" 5)) PINGDOM_WSDL
                (VStr "KEY") (VStr "session-1") eq_refl eq_refl eq_refl eq_refl)
    as (Hw & _ & Hr).
  split; [exact Hw |].
  destruct (Hr 5 (VStruct [("status", VInt 5)]) eq_refl eq_refl ltac:(lia))
    as (e & _ & Hf & He).
  rewrite Hf, (He "Wrong Identification" eq_refl). reflexivity.
Defined.

(** ** The caches of checks and locations *)

Lemma same_wire_refl (st : state) : same_wire st st.
Proof. reflexivity. Qed.

Lemma same_wire_trans (a b c : state) : same_wire a b -> same_wire b c -> same_wire a c.
Proof. unfold same_wire. congruence. Qed.

Lemma same_wire_setattr (n : string) (v : value) : respects same_wire (setattr n v).
Proof. intros st. reflexivity. Qed.

Lemma once_then_same_wire {A B : Type} (name : string) (m : M A) (f : A -> M B) :
  calls_at_most_once name m -> (forall a, respects same_wire (f a)) ->
  calls_at_most_once name (m ≫= f).
Proof.
  intros Hm Hf st. rewrite run_bind. specialize (Hm st).
  destruct (m st) as [[a | e] st']; simpl in *; [| exact Hm].
  rewrite (Hf a st'). exact Hm.
Qed.

Lemma same_wire_then_once {A B : Type} (name : string) (m : M A) (f : A -> M B) :
  respects same_wire m -> (forall a, calls_at_most_once name (f a)) ->
  calls_at_most_once name (m ≫= f).
Proof.
  intros Hm Hf st. rewrite run_bind. specialize (Hm st).
  destruct (m st) as [[a | e] st']; simpl in *.
  - rewrite <- Hm. apply Hf.
  - left. exact Hm.
Qed.

Lemma same_wire_once {A : Type} (name : string) (m : M A) :
  respects same_wire m -> calls_at_most_once name m.
Proof. intros Hm st. left. apply Hm. Qed.

Lemma _callWithParams_once (srv : list call -> call -> outcome value)
    (name : string) (rest : list value) :
  calls_at_most_once name (_callWithParams srv name rest).
Proof.
  unfold _callWithParams, apikey.
  pose proof same_wire_refl. pose proof same_wire_trans.
  apply same_wire_then_once; [repeat respects_step | intros server].
  apply same_wire_then_once; [repeat respects_step | intros param].
  apply same_wire_then_once; [repeat respects_step | intros key].
  intros st. destruct server; try (left; reflexivity). right. eexists. reflexivity.
Qed.

Lemma _check_getList_once (srv : list call -> call -> outcome value) :
  calls_at_most_once "Check_getList" (_check_getList srv).
Proof.
  unfold _check_getList. pose proof same_wire_refl. pose proof same_wire_trans.
  pose proof same_wire_setattr.
  apply once_then_same_wire; [apply _callWithParams_once | intros r].
  repeat respects_step.
Qed.

Lemma _location_getList_once (srv : list call -> call -> outcome value) :
  calls_at_most_once "Location_getList" (_location_getList srv).
Proof.
  unfold _location_getList. pose proof same_wire_refl. pose proof same_wire_trans.
  pose proof same_wire_setattr.
  apply once_then_same_wire; [apply _callWithParams_once | intros r].
  repeat respects_step.
Qed.

Lemma checks_once (srv : list call -> call -> outcome value) :
  calls_at_most_once "Check_getList" (checks srv).
Proof.
  unfold checks. pose proof same_wire_refl. pose proof same_wire_trans.
  apply same_wire_then_once; [repeat respects_step | intros c].
  apply once_then_same_wire; [| intros _; repeat respects_step].
  destruct (is_None c); [apply _check_getList_once |].
  apply same_wire_once. repeat respects_step.
Qed.

Lemma locations_once (srv : list call -> call -> outcome value) :
  calls_at_most_once "Location_getList" (locations srv).
Proof.
  unfold locations. pose proof same_wire_refl. pose proof same_wire_trans.
  apply same_wire_then_once; [repeat respects_step | intros c].
  apply once_then_same_wire; [| intros _; repeat respects_step].
  destruct (is_None c); [apply _location_getList_once |].
  apply same_wire_once. repeat respects_step.
Qed.

Lemma count_calls_once (name : string) {A : Type} (m : M A) (st : state) :
  calls_at_most_once name m ->
  (count_calls name (wire (snd (m st))) <= count_calls name (wire st) + 1)%nat.
Proof.
  intros Hm. destruct (Hm st) as [-> | [args ->]]; [lia |].
  rewrite count_calls_app. unfold count_calls at 2. cbn [List.filter fst].
  rewrite String.eqb_refl. simpl. lia.
Qed.

(** A successful read through [getattr] tells what the attribute holds. *)
Lemma then_getattr_Return {A : Type} (m : M A) (n : string) (st st1 : state) (v : value) :
  (m ≫= fun _ => getattr n) st = (Return v, st1) -> attrs st1 !! n = Some v.
Proof.
  rewrite run_bind. destruct (m st) as [[a | e] st']; [| discriminate].
  unfold getattr. destruct (attrs st' !! n) as [x |] eqn:E; [| discriminate].
  intros [= <- <-]. exact E.
Qed.

Lemma checks_Return (srv : list call -> call -> outcome value) (st st1 : state) (cs : value) :
  checks srv st = (Return cs, st1) -> attrs st1 !! "_checks" = Some cs.
Proof.
  unfold checks. rewrite run_bind.
  destruct (getattr "_checks" st) as [[c | e] st']; [| discriminate].
  apply then_getattr_Return.
Qed.

Lemma locations_Return (srv : list call -> call -> outcome value) (st st1 : state)
    (ls : value) :
  locations srv st = (Return ls, st1) -> attrs st1 !! "_locations" = Some ls.
Proof.
  unfold locations. rewrite run_bind.
  destruct (getattr "_locations" st) as [[c | e] st']; [| discriminate].
  apply then_getattr_Return.
Qed.

Lemma run_checks_cached (srv : list call -> call -> outcome value) (st : state) (cs : value) :
  attrs st !! "_checks" = Some cs -> is_None cs = false ->
  checks srv st = (Return cs, st).
Proof.
  intros Hc Hn. unfold checks.
  rewrite run_bind, (run_getattr _ _ _ Hc), Hn, run_bind. simpl.
  apply run_getattr, Hc.
Qed.

Lemma run_locations_cached (srv : list call -> call -> outcome value) (st : state)
    (ls : value) :
  attrs st !! "_locations" = Some ls -> is_None ls = false ->
  locations srv st = (Return ls, st).
Proof.
  intros Hc Hn. unfold locations.
  rewrite run_bind, (run_getattr _ _ _ Hc), Hn, run_bind. simpl.
  apply run_getattr, Hc.
Qed.

Lemma access_fixed {A : Type} (m : M A) (st : state) (n : nat) :
  snd (m st) = st -> access m n st = st.
Proof. intros H. induction n as [| n IH]; [reflexivity |]. simpl. rewrite H. exact IH. Qed.

(** C7, as the code has it: once an access to [checks] has returned a
    value other than None, every later access returns that same value and
    leaves the state, hence the wire, as it is; so a run of accesses whose
    first one succeeds puts at most one [Check_getList] on the wire.  Any
    single access puts at most one call on the wire.  [locations] behaves
    the same with [Location_getList], and neither property touches the
    other's cache. *)
Theorem checks_locations_cached (srv : list call -> call -> outcome value) :
  (forall st cs st1, checks srv st = (Return cs, st1) -> is_None cs = false ->
     forall n : nat,
       checks srv (access (checks srv) n st1) = (Return cs, st1) /\
       (count_calls "Check_getList" (wire (access (checks srv) (S n) st))
          <= count_calls "Check_getList" (wire st) + 1)%nat) /\
  (forall st ls st1, locations srv st = (Return ls, st1) -> is_None ls = false ->
     forall n : nat,
       locations srv (access (locations srv) n st1) = (Return ls, st1) /\
       (count_calls "Location_getList" (wire (access (locations srv) (S n) st))
          <= count_calls "Location_getList" (wire st) + 1)%nat) /\
  (forall st, calls_at_most_once "Check_getList" (checks srv) /\
              calls_at_most_once "Location_getList" (locations srv) /\
              attrs (snd (checks srv st)) !! "_locations" = attrs st !! "_locations" /\
              attrs (snd (locations srv st)) !! "_checks" = attrs st !! "_checks").
Proof.
  split; [| split].
  - intros st cs st1 Hc Hn n.
    pose proof (run_checks_cached srv st1 cs (checks_Return srv st st1 cs Hc) Hn) as H1.
    assert (Hfix : access (checks srv) n st1 = st1) by (apply access_fixed; now rewrite H1).
    split; [rewrite Hfix; exact H1 |].
    simpl access. rewrite Hc. simpl snd. rewrite Hfix.
    pose proof (count_calls_once "Check_getList" (checks srv) st (checks_once srv)) as Hle.
    rewrite Hc in Hle. exact Hle.
  - intros st ls st1 Hc Hn n.
    pose proof (run_locations_cached srv st1 ls (locations_Return srv st st1 ls Hc) Hn) as H1.
    assert (Hfix : access (locations srv) n st1 = st1) by (apply access_fixed; now rewrite H1).
    split; [rewrite Hfix; exact H1 |].
    simpl access. rewrite Hc. simpl snd. rewrite Hfix.
    pose proof (count_calls_once "Location_getList" (locations srv) st (locations_once srv))
      as Hle.
    rewrite Hc in Hle. exact Hle.
  - intros st. split; [apply checks_once |]. split; [apply locations_once |]. split.
    + apply (checks_frame srv ["_locations"]); simpl; [intuition discriminate | tauto].
    + apply (locations_frame srv ["_checks"]); simpl; [intuition discriminate | tauto].
Qed.

Lemma checks_locations_cached_witness :
  checks (Sample.service Sample.ok)
      (access (checks (Sample.service Sample.ok)) 3
         (snd (checks (Sample.service Sample.ok) Sample.client))) =
    (Return (VList [VStr "Web"; VStr "Communicate"]),
     snd (checks (Sample.service Sample.ok) Sample.client)) /\
  (count_calls "Check_getList"
     (wire (access (checks (Sample.service Sample.ok)) 4 Sample.client))
   <= count_calls "Check_getList" (wire Sample.client) + 1)%nat.
Proof.
  exact (proj1 (checks_locations_cached (Sample.service Sample.ok))
           Sample.client (VList [VStr "Web"; VStr "Communicate"])
           (snd (checks (Sample.service Sample.ok) Sample.client))
           eq_refl eq_refl 3%nat).
Defined.

(** C7 fails as stated: against a service that answers [Check_getList]
    with status 5, the first access raises and caches nothing, and the
    second access calls again: two accesses, two [Check_getList] calls. *)
Lemma checks_two_failed_accesses_two_calls :
  count_calls "Check_getList" (wire (Sample.client_of (Sample.rejecting "Check_getList" 5)))
    = 0%nat /\
  count_calls "Check_getList"
    (wire (access (checks (Sample.rejecting "Check_getList" 5)) 2
             (Sample.client_of (Sample.rejecting "Check_getList" 5)))) = 2%nat.
Proof. split; reflexivity. Qed.

(** ** The dispatch rule *)

Lemma dispatches_emits (st st' : state) : dispatches st st' -> emits st st'.
Proof. intros [_ H]. exact H. Qed.

Lemma emits_same_wire (st st1 st2 : state) :
  emits st st1 -> same_wire st1 st2 -> emits st st2.
Proof. intros (new & Hw & Hc) H. exists new. rewrite H. auto. Qed.

Lemma _logout_emits (srv : list call -> call -> outcome value) (st : state) :
  emits st (snd (_logout srv st)).
Proof.
  unfold _logout. rewrite run_bind. unfold getattr at 1.
  destruct (attrs st !! "_sessionid") as [sid |]; [| apply dispatches_emits, dispatches_refl].
  destruct (py_eq sid VNone); [apply dispatches_emits, dispatches_refl |].
  rewrite run_bind.
  pose proof (dispatches__callWithParams srv "Auth_logout" [] st) as Hc.
  destruct (_callWithParams srv "Auth_logout" [] st) as [[r | e] st1]; simpl in Hc;
    [| apply dispatches_emits, Hc].
  eapply emits_same_wire; [apply dispatches_emits, Hc |].
  pose proof same_wire_refl. pose proof same_wire_trans. pose proof same_wire_setattr.
  assert (Hk : respects same_wire
                 (status ← lift (getitem r "status");
                  if py_eq status (VInt 0) then setattr "_sessionid" VNone;; mret true
                  else raise_PingdomException status)) by repeat respects_step.
  apply Hk.
Qed.

Lemma Pingdom_wire (srv : list call -> call -> outcome value) (u p k : value)
    (w : list call) :
  snd (Pingdom srv u p k w) =
    (w ++ [("Auth_login", [k; VDict [("username", u); ("password", p)]])])%list.
Proof.
  unfold Pingdom. rewrite run___init__.
  pose proof (run__login_fresh srv u p k w) as Hl. cbv zeta in Hl. rewrite Hl.
  destruct (srv w _) as [r | e]; [| reflexivity].
  destruct (unpack2 r) as [[status sessionid] | e]; [| reflexivity].
  destruct (py_eq status (VInt 0)); [reflexivity |].
  unfold raise_PingdomException.
  destruct (PingdomException_init status); reflexivity.
Qed.

Lemma echo_wire (srv : list call -> call -> outcome value) (inString : value)
    (st : state) (w : string) :
  attrs st !! "_server" = Some (VProxy w) ->
  wire (snd (echo srv inString st)) = (wire st ++ [("Test_echo", [inString])])%list.
Proof.
  intros Hs. unfold echo. rewrite run_bind, (run_getattr _ _ _ Hs), run_bind.
  simpl Proxy_call.
  destruct (srv (wire st) ("Test_echo", [inString])) as [r | e]; [| reflexivity].
  rewrite run_bind. unfold lift.
  destruct (unpack2 r) as [[status result] | e]; [| reflexivity].
  destruct (py_eq status (VInt 0)); [reflexivity |].
  unfold raise_PingdomException.
  destruct (PingdomException_init status); reflexivity.
Qed.

(** C4, as the code has it: the constructor's call and every call sent by
    an operation other than [echo] is built by the dispatch rule: the API
    key first, then the credentials for [Auth_login] and the session id
    for any other method, then the call's own arguments.  [echo] does not
    go through the rule: it sends [Test_echo] with the caller's string as
    its only argument. *)
Theorem calls_follow_dispatch_rule (srv : list call -> call -> outcome value) :
  (forall u p k w,
     snd (Pingdom srv u p k w) =
       (w ++ [("Auth_login", [k; VDict [("username", u); ("password", p)]])])%list) /\
  (forall o st, (forall s, o <> Op_echo s) -> emits st (run srv o st)) /\
  (forall s st w, attrs st !! "_server" = Some (VProxy w) ->
     wire (snd (echo srv s st)) = (wire st ++ [("Test_echo", [s])])%list).
Proof.
  split; [apply Pingdom_wire |]. split; [| apply echo_wire].
  intros o st Ho.
  pose proof dispatches_refl as Hr. pose proof dispatches_trans as Ht.
  assert (Hset : forall n v, In n ["_checks"; "_locations"] ->
                             respects dispatches (setattr n v))
    by apply dispatches_setattr.
  pose proof (dispatches__callWithParams srv) as Hcall.
  destruct o; unfold run.
  - apply dispatches_emits, respects_loggedin; assumption.
  - apply dispatches_emits, respects_username; assumption.
  - apply dispatches_emits, respects_apikey; assumption.
  - apply dispatches_emits, respects_checks; try assumption.
    intros v; apply Hset; simpl; tauto.
  - apply dispatches_emits, respects_locations; try assumption.
    intros v; apply Hset; simpl; tauto.
  - apply dispatches_emits, respects_states; assumption.
  - apply dispatches_emits, respects_downtimes; assumption.
  - apply dispatches_emits, respects_downtimesFor; try assumption.
    intros v; apply Hset; simpl; tauto.
  - exfalso. apply (Ho inString). reflexivity.
  - rewrite snd___del__. apply _logout_emits.
  - apply dispatches_emits, respects___repr__; assumption.
Qed.

Lemma calls_follow_dispatch_rule_witness :
  emits Sample.client (run (Sample.service Sample.ok) Op_checks Sample.client) /\
  wire (snd (echo (Sample.service Sample.ok) (VStr "hello") Sample.client)) =
    (wire Sample.client ++ [("Test_echo", [VStr "hello"])])%list.
Proof.
  destruct (calls_follow_dispatch_rule (Sample.service Sample.ok)) as (_ & Hops & Hecho).
  split.
  - apply Hops. intros s. discriminate.
  - exact (Hecho (VStr "hello") Sample.client PINGDOM_WSDL eq_refl).
Defined.

(** C4 fails as stated: the call [echo] sends has the caller's string as
    its first and only argument, not the API key followed by the session
    id. *)
Lemma echo_call_without_apikey :
  wire (run (Sample.service Sample.ok) (Op_echo (VStr "hello")) Sample.client) =
    (wire Sample.client ++ [("Test_echo", [VStr "hello"])])%list /\
  ~ emits Sample.client (run (Sample.service Sample.ok) (Op_echo (VStr "hello")) Sample.client).
Proof.
  split; [reflexivity |]. intros (new & Hw & Hc).
  change (wire (run (Sample.service Sample.ok) (Op_echo (VStr "hello")) Sample.client))
    with (wire Sample.client ++ [("Test_echo", [VStr "hello"])])%list in Hw.
  apply app_inv_head in Hw. subst new.
  inversion Hc as [| c l (k & p & rest & _ & _ & Hargs) _]. discriminate Hargs.
Qed.

(** ** Downtime reports *)

Lemma run_downtimesFor (srv : list call -> call -> outcome value)
    (check starttime endtime resolution : value) (st : state) :
  downtimesFor srv check starttime endtime resolution st =
    if py_eq starttime endtime then
      (Raise (ValueError "Start time and end time must be different"), st)
    else
      match REPORT_RESOLUTIONS_contains resolution with
      | Raise e => (Raise e, st)
      | Return known =>
          if negb known then (Raise (ValueError "Invalid report resolution"), st)
          else
            match checks srv st with
            | (Raise e, st1) => (Raise e, st1)
            | (Return cs, st1) =>
                match py_in check cs with
                | Raise e => (Raise e, st1)
                | Return present =>
                    if negb present then
                      raise_PingdomException (VStr "No such check available") st1
                    else if existsb (py_eq VNone) [check; starttime; endtime; resolution]
                    then (Raise (TypeError "Invalid type: NoneType"), st1)
                    else _report_getDowntimes srv check starttime endtime resolution st1
                end
            end
      end.
Proof.
  unfold downtimesFor. destruct (py_eq starttime endtime); [reflexivity |].
  rewrite run_bind. unfold lift.
  destruct (REPORT_RESOLUTIONS_contains resolution) as [known | e]; [| reflexivity].
  destruct (negb known); [reflexivity |].
  rewrite run_bind. destruct (checks srv st) as [[cs | e] st1]; [| reflexivity].
  rewrite run_bind. destruct (py_in check cs) as [present | e]; [| reflexivity].
  destruct (negb present); [reflexivity |].
  destruct (existsb (py_eq VNone) [check; starttime; endtime; resolution]); reflexivity.
Qed.

(** The exception the third rule means to raise never comes to exist: its
    constructor fails on the [STATUS_CODES] lookup. *)
Lemma run_raise_No_such_check {A : Type} (st : state) :
  @raise_PingdomException A (VStr "No such check available") st =
    (Raise (KeyError (VStr "No such check available")), st).
Proof. reflexivity. Qed.

Lemma count_calls_other (name other : string) (args : list value) (w : list call) :
  String.eqb other name = false ->
  count_calls name (w ++ [(other, args)]) = count_calls name w.
Proof.
  intros H. rewrite count_calls_app. unfold count_calls at 2. cbn [List.filter fst].
  rewrite H. simpl. lia.
Qed.

Lemma checks_no_Report_getDowntimes (srv : list call -> call -> outcome value) (st : state) :
  count_calls "Report_getDowntimes" (wire (snd (checks srv st))) =
    count_calls "Report_getDowntimes" (wire st).
Proof.
  destruct (checks_once srv st) as [-> | [args ->]]; [reflexivity |].
  apply count_calls_other. reflexivity.
Qed.

Lemma run__convertTime_tuple (xs : list value) (st : state) :
  _convertTime (VTuple xs) st = (Return (VDateTime (VTuple (firstn 6 xs))), st).
Proof. reflexivity. Qed.

Lemma run__report_getDowntimes (srv : list call -> call -> outcome value)
    (check resolution : value) (xs ys : list value) (st : state)
    (w : string) (k sid : value) :
  attrs st !! "_server" = Some (VProxy w) ->
  attrs st !! "_apikey" = Some k ->
  attrs st !! "_sessionid" = Some sid ->
  let params := VDict [ ("checkName", VStr "Communicate");
                        ("from", VDateTime (VTuple (firstn 6 xs)));
                        ("to", VDateTime (VTuple (firstn 6 ys)));
                        ("resolution", VStr "DAILY") ] in
  let c := ("Report_getDowntimes", [k; sid; params]) in
  let st' := State (attrs st) (wire st ++ [c]) in
  _report_getDowntimes srv check (VTuple xs) (VTuple ys) resolution st =
    match srv (wire st) c with
    | Raise e => (Raise e, st')
    | Return r =>
        match unpack2 r with
        | Raise e => (Raise e, st')
        | Return (status, payload) =>
            if py_eq status (VInt 0) then
              match getitem payload "item" with
              | Raise e => (Raise e, st')
              | Return items => (py_map _asdict items, st')
              end
            else raise_PingdomException status st'
        end
    end.
Proof.
  intros Hs Hk Hi params c st'. unfold _report_getDowntimes.
  rewrite run_bind, run__convertTime_tuple, run_bind, run__convertTime_tuple.
  cbv zeta. rewrite run_bind.
  rewrite (run__callWithParams srv "Report_getDowntimes" _ st w k sid Hs Hk Hi).
  fold params. fold c. fold st'.
  destruct (srv (wire st) c) as [r | e]; [| reflexivity].
  rewrite run_bind. unfold lift. destruct (unpack2 r) as [[status payload] | e]; [| reflexivity].
  destruct (py_eq status (VInt 0)); [| reflexivity].
  rewrite run_bind. destruct (getitem payload "item"); reflexivity.
Qed.

Lemma snd__report_getDowntimes (srv : list call -> call -> outcome value)
    (check resolution : value) (xs ys : list value) (st : state)
    (w : string) (k sid : value) :
  attrs st !! "_server" = Some (VProxy w) ->
  attrs st !! "_apikey" = Some k ->
  attrs st !! "_sessionid" = Some sid ->
  wire (snd (_report_getDowntimes srv check (VTuple xs) (VTuple ys) resolution st)) =
    (wire st ++
     [("Report_getDowntimes",
       [k; sid; VDict [ ("checkName", VStr "Communicate");
                        ("from", VDateTime (VTuple (firstn 6 xs)));
                        ("to", VDateTime (VTuple (firstn 6 ys)));
                        ("resolution", VStr "DAILY") ]])])%list.
Proof.
  intros Hs Hk Hi.
  rewrite (run__report_getDowntimes srv check resolution xs ys st w k sid Hs Hk Hi).
  destruct (srv _ _) as [r | e]; [| reflexivity].
  destruct (unpack2 r) as [[status payload] | e]; [| reflexivity].
  destruct (py_eq status (VInt 0)).
  - destruct (getitem payload "item"); reflexivity.
  - unfold raise_PingdomException. destruct (PingdomException_init status); reflexivity.
Qed.

(** C1 does not hold of the code.  What does: a call of [downtimesFor]
    that passes the four rules, with time tuples, sends exactly one
    [Report_getDowntimes], with the API key, the session id and a
    parameter map whose [from] and [to] are the first six fields of the
    caller's times as date-times, and whose [checkName] and [resolution]
    are the literals "Communicate" and "DAILY", whatever check and
    resolution the caller gave. *)
Theorem downtimesFor_sends_literal_params (srv : list call -> call -> outcome value)
    (check resolution : value) (xs ys : list value) (st st1 : state) (cs : value)
    (w : string) (k sid : value) :
  attrs st !! "_server" = Some (VProxy w) ->
  attrs st !! "_apikey" = Some k ->
  attrs st !! "_sessionid" = Some sid ->
  py_eq (VTuple xs) (VTuple ys) = false ->
  REPORT_RESOLUTIONS_contains resolution = Return true ->
  checks srv st = (Return cs, st1) ->
  py_in check cs = Return true ->
  existsb (py_eq VNone) [check; VTuple xs; VTuple ys; resolution] = false ->
  wire (snd (downtimesFor srv check (VTuple xs) (VTuple ys) resolution st)) =
    (wire st1 ++
     [("Report_getDowntimes",
       [k; sid; VDict [ ("checkName", VStr "Communicate");
                        ("from", VDateTime (VTuple (firstn 6 xs)));
                        ("to", VDateTime (VTuple (firstn 6 ys)));
                        ("resolution", VStr "DAILY") ]])])%list /\
  count_calls "Report_getDowntimes"
    (wire (snd (downtimesFor srv check (VTuple xs) (VTuple ys) resolution st))) =
    (count_calls "Report_getDowntimes" (wire st) + 1)%nat.
Proof.
  intros Hs Hk Hi Hne Hres Hc Hin Hnone.
  rewrite run_downtimesFor, Hne, Hres, Hc, Hin, Hnone. cbv iota beta. simpl negb. cbv iota.
  assert (Hf : frame ["_server"; "_apikey"; "_sessionid"] st st1).
  { pose proof (checks_frame srv ["_server"; "_apikey"; "_sessionid"]) as H.
    specialize (H ltac:(simpl; intuition discriminate) st). rewrite Hc in H. exact H. }
  assert (Hs1 : attrs st1 !! "_server" = Some (VProxy w))
    by (rewrite (Hf "_server"); [exact Hs | simpl; tauto]).
  assert (Hk1 : attrs st1 !! "_apikey" = Some k)
    by (rewrite (Hf "_apikey"); [exact Hk | simpl; tauto]).
  assert (Hi1 : attrs st1 !! "_sessionid" = Some sid)
    by (rewrite (Hf "_sessionid"); [exact Hi | simpl; tauto]).
  rewrite (snd__report_getDowntimes srv check resolution xs ys st1 w k sid Hs1 Hk1 Hi1).
  split; [reflexivity |].
  rewrite count_calls_app.
  pose proof (checks_no_Report_getDowntimes srv st) as Hn. rewrite Hc in Hn. simpl in Hn.
  rewrite Hn. reflexivity.
Qed.

Lemma downtimesFor_sends_literal_params_witness :
  wire (snd (downtimesFor (Sample.service Sample.ok) (VStr "Web")
               (VTuple Sample.t2009) (VTuple Sample.t2010) (VStr "WEEKLY") Sample.client)) =
    (wire (snd (checks (Sample.service Sample.ok) Sample.client)) ++
     [("Report_getDowntimes",
       [VStr "KEY"; VStr "session-1";
        VDict [ ("checkName", VStr "Communicate");
                ("from", VDateTime (VTuple [VInt 2009; VInt 1; VInt 1; VInt 0; VInt 0; VInt 0]));
                ("to", VDateTime (VTuple [VInt 2010; VInt 1; VInt 1; VInt 0; VInt 0; VInt 0]));
                ("resolution", VStr "DAILY") ]])])%list.
Proof.
  exact (proj1 (downtimesFor_sends_literal_params (Sample.service Sample.ok)
                  (VStr "Web") (VStr "WEEKLY") Sample.t2009 Sample.t2010 Sample.client
                  (snd (checks (Sample.service Sample.ok) Sample.client))
                  (VList [VStr "Web"; VStr "Communicate"])
                  PINGDOM_WSDL (VStr "KEY") (VStr "session-1")
                  eq_refl eq_refl eq_refl eq_refl eq_refl eq_refl eq_refl eq_refl)).
Defined.

(** C2 does not hold of the code.  What does: for a check that is not
    among the client's checks, with two different times and a known
    resolution, [downtimesFor] raises KeyError: building the
    [PingdomException] of "No such check available" fails on the
    [STATUS_CODES] lookup.  No [Report_getDowntimes] goes out, and at most
    one [Check_getList]. *)
Theorem downtimesFor_unknown_check_KeyError (srv : list call -> call -> outcome value)
    (check starttime endtime resolution : value) (st st1 : state) (cs : value) :
  py_eq starttime endtime = false ->
  REPORT_RESOLUTIONS_contains resolution = Return true ->
  checks srv st = (Return cs, st1) ->
  py_in check cs = Return false ->
  downtimesFor srv check starttime endtime resolution st =
    (Raise (KeyError (VStr "No such check available")), st1) /\
  count_calls "Report_getDowntimes" (wire st1) = count_calls "Report_getDowntimes" (wire st) /\
  (count_calls "Check_getList" (wire st1) <= count_calls "Check_getList" (wire st) + 1)%nat.
Proof.
  intros Hne Hres Hc Hin. split; [| split].
  - rewrite run_downtimesFor, Hne, Hres, Hc, Hin. reflexivity.
  - pose proof (checks_no_Report_getDowntimes srv st) as Hn. rewrite Hc in Hn. exact Hn.
  - pose proof (count_calls_once "Check_getList" (checks srv) st (checks_once srv)) as Hle.
    rewrite Hc in Hle. exact Hle.
Qed.

Lemma downtimesFor_unknown_check_KeyError_witness :
  fst (downtimesFor (Sample.service Sample.ok) (VStr "Mail")
         (VTuple Sample.t2009) (VTuple Sample.t2010) (VStr "DAILY") Sample.client) =
    Raise (KeyError (VStr "No such check available")).
Proof.
  rewrite (proj1 (downtimesFor_unknown_check_KeyError (Sample.service Sample.ok)
                    (VStr "Mail") (VTuple Sample.t2009) (VTuple Sample.t2010) (VStr "DAILY")
                    Sample.client (snd (checks (Sample.service Sample.ok) Sample.client))
                    (VList [VStr "Web"; VStr "Communicate"])
                    eq_refl eq_refl eq_refl eq_refl)).
  reflexivity.
Defined.

(** C6 does not hold of the code in its third rule.  What does: the rules
    are tried in the order 1, 2, 3, 4 and the first that fails decides;
    rules 1 and 2 raise ValueError and leave the state, hence the wire, as
    it was; rule 3, after [checks] has been read, raises KeyError (the
    [PingdomException] it means to raise cannot be built); rule 4 raises
    TypeError; only when all four pass is [_report_getDowntimes] run, and
    reading [checks] puts no [Report_getDowntimes] on the wire. *)
Theorem downtimesFor_validation_order (srv : list call -> call -> outcome value)
    (check starttime endtime resolution : value) (st : state) :
  (py_eq starttime endtime = true ->
   downtimesFor srv check starttime endtime resolution st =
     (Raise (ValueError "Start time and end time must be different"), st)) /\
  (py_eq starttime endtime = false ->
   REPORT_RESOLUTIONS_contains resolution = Return false ->
   downtimesFor srv check starttime endtime resolution st =
     (Raise (ValueError "Invalid report resolution"), st)) /\
  (forall cs st1,
     py_eq starttime endtime = false ->
     REPORT_RESOLUTIONS_contains resolution = Return true ->
     checks srv st = (Return cs, st1) ->
     count_calls "Report_getDowntimes" (wire st1) =
       count_calls "Report_getDowntimes" (wire st) /\
     (py_in check cs = Return false ->
      downtimesFor srv check starttime endtime resolution st =
        (Raise (KeyError (VStr "No such check available")), st1)) /\
     (py_in check cs = Return true ->
      existsb (py_eq VNone) [check; starttime; endtime; resolution] = true ->
      downtimesFor srv check starttime endtime resolution st =
        (Raise (TypeError "Invalid type: NoneType"), st1)) /\
     (py_in check cs = Return true ->
      existsb (py_eq VNone) [check; starttime; endtime; resolution] = false ->
      downtimesFor srv check starttime endtime resolution st =
        _report_getDowntimes srv check starttime endtime resolution st1)).
Proof.
  rewrite run_downtimesFor. split; [| split].
  - intros ->. reflexivity.
  - intros -> ->. reflexivity.
  - intros cs st1 -> -> Hc. rewrite Hc. split; [| split; [| split]].
    + pose proof (checks_no_Report_getDowntimes srv st) as Hn. rewrite Hc in Hn. exact Hn.
    + intros ->. reflexivity.
    + intros -> ->. reflexivity.
    + intros -> ->. reflexivity.
Qed.

Lemma downtimesFor_validation_order_witness :
  downtimesFor (Sample.service Sample.ok) (VStr "Mail")
      (VTuple Sample.t2009) (VTuple Sample.t2009) (VStr "HOURLY") Sample.client =
    (Raise (ValueError "Start time and end time must be different"), Sample.client) /\
  downtimesFor (Sample.service Sample.ok) (VStr "Mail")
      (VTuple Sample.t2009) (VTuple Sample.t2010) (VStr "HOURLY") Sample.client =
    (Raise (ValueError "Invalid report resolution"), Sample.client) /\
  downtimesFor (Sample.service Sample.ok) (VStr "Mail")
      (VTuple Sample.t2009) VNone (VStr "DAILY") Sample.client =
    (Raise (KeyError (VStr "No such check available")),
     snd (checks (Sample.service Sample.ok) Sample.client)) /\
  downtimesFor (Sample.service Sample.ok) (VStr "Web")
      (VTuple Sample.t2009) VNone (VStr "DAILY") Sample.client =
    (Raise (TypeError "Invalid type: NoneType"),
     snd (checks (Sample.service Sample.ok) Sample.client)).
Proof.
  split; [| split; [| split]].
  - exact (proj1 (downtimesFor_validation_order (Sample.service Sample.ok) (VStr "Mail")
                    (VTuple Sample.t2009) (VTuple Sample.t2009) (VStr "HOURLY") Sample.client)
             eq_refl).
  - exact (proj1 (proj2 (downtimesFor_validation_order (Sample.service Sample.ok)
                           (VStr "Mail") (VTuple Sample.t2009) (VTuple Sample.t2010)
                           (VStr "HOURLY") Sample.client))
             eq_refl eq_refl).
  - exact (proj1 (proj2 (proj2 (proj2 (downtimesFor_validation_order
                     (Sample.service Sample.ok) (VStr "Mail") (VTuple Sample.t2009) VNone
                     (VStr "DAILY") Sample.client))
                   (VList [VStr "Web"; VStr "Communicate"])
                   (snd (checks (Sample.service Sample.ok) Sample.client))
                   eq_refl eq_refl eq_refl))
             eq_refl).
  - exact (proj1 (proj2 (proj2 (proj2 (proj2 (downtimesFor_validation_order
                     (Sample.service Sample.ok) (VStr "Web") (VTuple Sample.t2009) VNone
                     (VStr "DAILY") Sample.client))
                   (VList [VStr "Web"; VStr "Communicate"])
                   (snd (checks (Sample.service Sample.ok) Sample.client))
                   eq_refl eq_refl eq_refl)))
             eq_refl eq_refl).
Defined.

(** * Further properties of the module *)

(** ** Equality of values *)

Lemma py_eq_refl : forall v, py_eq v v = true.
Proof.
  fix IH 1. intros [| z | s | xs | xs | kvs | kvs | v | w]; simpl.
  - reflexivity.
  - apply Z.eqb_refl.
  - apply String.eqb_refl.
  - induction xs as [| x xs IHxs]; [reflexivity |]. rewrite IH. exact IHxs.
  - induction xs as [| x xs IHxs]; [reflexivity |]. rewrite IH. exact IHxs.
  - induction kvs as [| [k x] kvs IHkvs]; [reflexivity |].
    rewrite String.eqb_refl, IH. exact IHkvs.
  - induction kvs as [| [k x] kvs IHkvs]; [reflexivity |].
    rewrite String.eqb_refl, IH. exact IHkvs.
  - apply IH.
  - apply String.eqb_refl.
Qed.

Lemma py_eq_VStr (x : value) (s : string) : py_eq x (VStr s) = true <-> x = VStr s.
Proof.
  split.
  - destruct x; simpl; try discriminate. intros H. apply String.eqb_eq in H. now subst.
  - intros ->. apply py_eq_refl.
Qed.

Lemma py_eq_VNone (x : value) : py_eq x VNone = true <-> x = VNone.
Proof. split; [destruct x; simpl; (discriminate || reflexivity) | intros ->; reflexivity]. Qed.

(** X1: a call of [downtimesFor] whose start and end times are the same
    value is refused by the first rule, whatever the value and the other
    arguments are: ValueError, and the state, hence the wire, is as it
    was. *)
Theorem downtimesFor_same_time_ValueError (srv : list call -> call -> outcome value)
    (check time resolution : value) (st : state) :
  downtimesFor srv check time time resolution st =
    (Raise (ValueError "Start time and end time must be different"), st).
Proof. unfold downtimesFor. rewrite py_eq_refl. reflexivity. Qed.

(** ** The tables *)

Lemma assocZ_STATUS_CODES (z : Z) :
  (exists meaning, assocZ z STATUS_CODES = Some meaning) <-> 0 <= z <= 7.
Proof.
  split.
  - intros [meaning H]. unfold STATUS_CODES in H. simpl in H.
    repeat match type of H with
           | context [Z.eqb z ?n] => destruct (Z.eqb_spec z n); [lia |]
           end.
    discriminate.
  - intros Hz.
    assert (H : z = 0 \/ z = 1 \/ z = 2 \/ z = 3 \/ z = 4 \/ z = 5 \/ z = 6 \/ z = 7) by lia.
    repeat (destruct H as [-> | H]; [eexists; reflexivity |]).
    subst. eexists. reflexivity.
Qed.

(** X2: a [PingdomException] can be built exactly for the integer
    statuses 0 to 7; its message is then "Error ", the status, ": " and
    the status's text in [STATUS_CODES].  For any other status, a string
    for one, the constructor itself raises and there is no exception
    object. *)
Theorem PingdomException_init_Return (status : value) :
  (forall e, PingdomException_init status = Return e ->
     exists z meaning, status = VInt z /\ 0 <= z <= 7 /\
                       assocZ z STATUS_CODES = Some meaning /\
                       e = PingdomException (VInt z) (PingdomException_message z meaning)) /\
  (forall z, status = VInt z -> 0 <= z <= 7 ->
     exists e, PingdomException_init status = Return e) /\
  (forall z, status = VInt z -> ~ 0 <= z <= 7 ->
     PingdomException_init status = Raise (KeyError status)) /\
  (forall s, status = VStr s -> PingdomException_init status = Raise (KeyError status)).
Proof.
  split; [| split; [| split]].
  - intros e. unfold PingdomException_init, STATUS_CODES_getitem.
    destruct status as [| z | s | xs | xs | kvs | kvs | v | w];
      try (destruct (hashable _); discriminate).
    destruct (assocZ z STATUS_CODES) as [meaning |] eqn:E; [| discriminate].
    intros [= <-]. exists z, meaning. repeat split; try reflexivity.
    + apply assocZ_STATUS_CODES; eauto.
    + apply assocZ_STATUS_CODES; eauto.
    + exact E.
  - intros z -> Hz. apply assocZ_STATUS_CODES in Hz as [meaning E].
    unfold PingdomException_init, STATUS_CODES_getitem. rewrite E. eauto.
  - intros z -> Hz. unfold PingdomException_init, STATUS_CODES_getitem.
    destruct (assocZ z STATUS_CODES) as [meaning |] eqn:E; [| reflexivity].
    exfalso. apply Hz, assocZ_STATUS_CODES. eauto.
  - intros s ->. reflexivity.
Qed.

Lemma PingdomException_init_Return_witness :
  PingdomException_init (VInt 6) =
    Return (PingdomException (VInt 6) "Error 6: Wrong Authorization") /\
  PingdomException_init (VInt (-1)) = Raise (KeyError (VInt (-1))).
Proof.
  split.
  - destruct (proj1 (PingdomException_init_Return (VInt 6)) _ eq_refl)
      as (z & meaning & Hz & _ & Hm & He).
    injection Hz as <-. injection Hm as <-. reflexivity.
  - apply (proj1 (proj2 (proj2 (PingdomException_init_Return (VInt (-1))))) (-1) eq_refl).
    lia.
Defined.

(** X3: the resolutions [downtimesFor] lets through are exactly the three
    keys of [REPORT_RESOLUTIONS], the upper-case strings "DAILY", "WEEKLY"
    and "MONTHLY"; the table's values ("Daily", ...) and None are not
    among them. *)
Theorem REPORT_RESOLUTIONS_contains_keys (resolution : value) :
  REPORT_RESOLUTIONS_contains resolution = Return true <->
  resolution = VStr "DAILY" \/ resolution = VStr "WEEKLY" \/ resolution = VStr "MONTHLY".
Proof.
  unfold REPORT_RESOLUTIONS_contains, REPORT_RESOLUTIONS, py_in. simpl map. split.
  - destruct (hashable resolution); [| discriminate].
    intros [= H]. simpl in H. apply orb_true_iff in H as [H | H];
      [left; apply py_eq_VStr, H |].
    apply orb_true_iff in H as [H | H]; [right; left; apply py_eq_VStr, H |].
    apply orb_true_iff in H as [H | H]; [right; right; apply py_eq_VStr, H | discriminate].
  - intros [-> | [-> | ->]]; reflexivity.
Qed.

Lemma REPORT_RESOLUTIONS_contains_keys_witness :
  REPORT_RESOLUTIONS_contains (VStr "WEEKLY") = Return true /\
  REPORT_RESOLUTIONS_contains (VStr "Weekly") <> Return true /\
  REPORT_RESOLUTIONS_contains VNone <> Return true.
Proof.
  split; [| split].
  - apply (proj2 (REPORT_RESOLUTIONS_contains_keys (VStr "WEEKLY"))). right. left. reflexivity.
  - intros H. apply (proj1 (REPORT_RESOLUTIONS_contains_keys (VStr "Weekly"))) in H.
    destruct H as [H | [H | H]]; discriminate H.
  - intros H. apply (proj1 (REPORT_RESOLUTIONS_contains_keys VNone)) in H.
    destruct H as [H | [H | H]]; discriminate H.
Defined.

(** ** What no operation changes *)

Lemma run_frame_identity (srv : list call -> call -> outcome value) (o : op) (st : state) :
  frame ["_credentials"; "_apikey"; "_server"] st (run srv o st).
Proof.
  apply (respects_run srv (frame ["_credentials"; "_apikey"; "_server"])).
  - apply frame_refl.
  - apply frame_trans.
  - intros v. apply frame_setattr. simpl. intuition discriminate.
  - intros v. apply frame_setattr. simpl. intuition discriminate.
  - intros v. apply frame_setattr. simpl. intuition discriminate.
  - apply frame__callWithParams.
  - apply frame_Proxy_call.
Qed.

Lemma run_frame_sessionid (srv : list call -> call -> outcome value) (o : op) (st : state) :
  o <> Op_del -> frame ["_sessionid"] st (run srv o st).
Proof.
  intros Ho.
  pose proof (frame_refl ["_sessionid"]) as Hr.
  pose proof (frame_trans ["_sessionid"]) as Ht.
  assert (Hset : forall n v, In n ["_checks"; "_locations"] ->
                             respects (frame ["_sessionid"]) (setattr n v)).
  { intros n v Hn. apply frame_setattr. simpl in *. intuition (subst; discriminate). }
  pose proof (frame__callWithParams srv ["_sessionid"]) as Hcall.
  pose proof (frame_Proxy_call srv ["_sessionid"]) as Hproxy.
  destruct o; unfold run.
  - apply respects_loggedin; assumption.
  - apply respects_username; assumption.
  - apply respects_apikey; assumption.
  - apply respects_checks; try assumption. intros v; apply Hset; simpl; tauto.
  - apply respects_locations; try assumption. intros v; apply Hset; simpl; tauto.
  - apply respects_states; assumption.
  - apply respects_downtimes; assumption.
  - apply respects_downtimesFor; try assumption. intros v; apply Hset; simpl; tauto.
  - apply respects_echo; assumption.
  - contradiction.
  - apply respects___repr__; assumption.
Qed.

(** X4: no public operation changes the credentials, the API key or the
    proxy of a client, and no operation other than disposal changes its
    session id: whatever the operation returns or raises, these attributes
    are afterwards what they were before. *)
Theorem run_keeps_identity (srv : list call -> call -> outcome value) (o : op) (st : state) :
  attrs (run srv o st) !! "_credentials" = attrs st !! "_credentials" /\
  attrs (run srv o st) !! "_apikey" = attrs st !! "_apikey" /\
  attrs (run srv o st) !! "_server" = attrs st !! "_server" /\
  (o <> Op_del -> attrs (run srv o st) !! "_sessionid" = attrs st !! "_sessionid").
Proof.
  pose proof (run_frame_identity srv o st) as H.
  repeat split; try (apply H; simpl; tauto).
  intros Ho. apply (run_frame_sessionid srv o st Ho). simpl. tauto.
Qed.

Lemma run_keeps_identity_witness :
  attrs (run (Sample.rejecting "Check_getList" 5)
           (Op_downtimesFor (VStr "Web") (VTuple Sample.t2009) (VTuple Sample.t2010)
              (VStr "DAILY")) Sample.client) !! "_sessionid" = Some (VStr "session-1").
Proof.
  rewrite (proj2 (proj2 (proj2 (run_keeps_identity (Sample.rejecting "Check_getList" 5)
                     (Op_downtimesFor (VStr "Web") (VTuple Sample.t2009)
                        (VTuple Sample.t2010) (VStr "DAILY")) Sample.client)))).
  - reflexivity.
  - discriminate.
Defined.

Lemma __init___credentials (srv : list call -> call -> outcome value) (u p k : value)
    (w : list call) :
  attrs (snd (__init__ srv u p k (State ∅ w))) !! "_credentials" =
    Some (VDict [("username", u); ("password", p)]).
Proof.
  rewrite run___init__.
  assert (H : frame ["_credentials"] (State (fresh_attrs u p k) w)
                (snd (_login srv (State (fresh_attrs u p k) w)))).
  { apply (respects__login srv (frame ["_credentials"])).
    - apply frame_refl.
    - apply frame_trans.
    - intros v. apply frame_setattr. simpl. intuition discriminate.
    - apply frame__callWithParams. }
  specialize (H "_credentials" ltac:(simpl; tauto)).
  destruct (_login srv (State (fresh_attrs u p k) w)) as [[b | e] st]; exact H.
Qed.

Lemma reachable_credentials (srv : list call -> call -> outcome value) (st : state) :
  reachable srv st ->
  exists u p, attrs st !! "_credentials" = Some (VDict [("username", u); ("password", p)]).
Proof.
  induction 1 as [u p k w st Hinit | o st _ (u & p & IH)].
  - exists u, p. pose proof (__init___credentials srv u p k w) as H.
    rewrite Hinit in H. exact H.
  - exists u, p. rewrite <- IH. apply (run_frame_identity srv o st). simpl. tauto.
Qed.

(** X5: [__repr__] raises AttributeError on every client: after reading
    the user name from the credentials it reads [self.sessionid], and the
    constructor and the methods only ever store [_sessionid]. *)
Theorem __repr___raises_AttributeError (srv : list call -> call -> outcome value)
    (st : state) :
  reachable srv st -> __repr__ st = (Raise (AttributeError "sessionid"), st).
Proof.
  intros Hr. destruct (reachable_credentials srv st Hr) as (u & p & Hc).
  apply reachable_instance in Hr.
  unfold __repr__. rewrite run_bind, (run_getattr _ _ _ Hc), run_bind.
  change (lift (getitem (VDict [("username", u); ("password", p)]) "username") st)
    with (Return u, st).
  cbv iota beta. rewrite run_bind. unfold getattr.
  destruct (attrs st !! "sessionid") as [v |] eqn:Hv; [| reflexivity].
  exfalso. assert (Hin : In "sessionid" attr_names).
  { apply (inst_only _ Hr). eauto. }
  unfold attr_names in Hin. simpl in Hin. intuition discriminate.
Qed.

Lemma __repr___raises_AttributeError_witness :
  __repr__ (run (Sample.service Sample.ok) Op_del Sample.client) =
    (Raise (AttributeError "sessionid"), run (Sample.service Sample.ok) Op_del Sample.client).
Proof.
  apply (__repr___raises_AttributeError (Sample.service Sample.ok)).
  apply reach_op.
  apply (reach_init _ (VStr "user") (VStr "secret") (VStr "KEY") []). reflexivity.
Defined.

(** ** The session *)

Lemma run__logout_None (srv : list call -> call -> outcome value) (st : state) :
  attrs st !! "_sessionid" = Some VNone -> _logout srv st = (Return true, st).
Proof. intros H. unfold _logout. rewrite run_bind, (run_getattr _ _ _ H). reflexivity. Qed.

Lemma _logout_Return (srv : list call -> call -> outcome value) (st st1 : state) (b : bool) :
  _logout srv st = (Return b, st1) -> attrs st1 !! "_sessionid" = Some VNone.
Proof.
  unfold _logout. rewrite run_bind. unfold getattr at 1.
  destruct (attrs st !! "_sessionid") as [sid |] eqn:Hsid; [| discriminate].
  destruct (py_eq sid VNone) eqn:Hn.
  - apply py_eq_VNone in Hn. subst sid. intros [= _ <-]. exact Hsid.
  - rewrite run_bind.
    destruct (_callWithParams srv "Auth_logout" [] st) as [[r | e] st']; [| discriminate].
    rewrite run_bind. unfold lift.
    destruct (getitem r "status") as [status | e]; [| discriminate].
    destruct (py_eq status (VInt 0)).
    + intros [= _ <-]. simpl. apply lookup_insert_eq.
    + unfold raise_PingdomException. destruct (PingdomException_init status); discriminate.
Qed.

Lemma __del___Return (srv : list call -> call -> outcome value) (st st1 : state)
    (v : value) :
  __del__ srv st = (Return v, st1) -> attrs st1 !! "_sessionid" = Some VNone.
Proof.
  rewrite run___del__. destruct (_logout srv st) as [[b | e] st'] eqn:Hl; [| discriminate].
  intros [= _ <-]. exact (_logout_Return srv st st' b Hl).
Qed.

(** X6: disposing of a client that holds no session id is a no-op: no
    call goes out, nothing changes and nothing is raised ([__del__]
    returns None), whatever the service would answer.  So once [__del__]
    has returned, the client reports [loggedin] False, and calling
    [__del__] again, against any service, does nothing. *)
Theorem __del___logged_out_noop (srv srv' : list call -> call -> outcome value)
    (st : state) :
  (attrs st !! "_sessionid" = Some VNone -> __del__ srv st = (Return VNone, st)) /\
  (forall v st1, __del__ srv st = (Return v, st1) ->
     loggedin st1 = (Return false, st1) /\ __del__ srv' st1 = (Return VNone, st1)).
Proof.
  assert (Hnoop : forall s st0, attrs st0 !! "_sessionid" = Some VNone ->
                                __del__ s st0 = (Return VNone, st0)).
  { intros s st0 H. rewrite run___del__, (run__logout_None s st0 H). reflexivity. }
  split; [apply Hnoop |].
  intros v st1 H. apply __del___Return in H. split.
  - unfold loggedin. rewrite run_bind, (run_getattr _ _ _ H). reflexivity.
  - apply Hnoop, H.
Qed.

Lemma __del___logged_out_noop_witness :
  loggedin Sample.client = (Return true, Sample.client) /\
  loggedin (snd (__del__ (Sample.service Sample.ok) Sample.client)) =
    (Return false, snd (__del__ (Sample.service Sample.ok) Sample.client)) /\
  __del__ (Sample.rejecting "Auth_logout" 5)
      (snd (__del__ (Sample.service Sample.ok) Sample.client)) =
    (Return VNone, snd (__del__ (Sample.service Sample.ok) Sample.client)).
Proof.
  split; [reflexivity |].
  exact (proj2 (__del___logged_out_noop (Sample.service Sample.ok)
                  (Sample.rejecting "Auth_logout" 5) Sample.client)
           VNone (snd (__del__ (Sample.service Sample.ok) Sample.client)) eq_refl).
Defined.

(** ** Which calls an operation makes *)

Lemma sends_nothing (names : list string) (st st' : state) :
  wire st' = wire st -> sends names st st'.
Proof.
  intros H. exists []. split; [rewrite H; symmetry; apply app_nil_r |].
  split; [apply List.Forall_nil | intros name; unfold count_calls; simpl; lia].
Qed.

Lemma count_calls_single (name other : string) (args : list value) :
  (count_calls name [(other, args)] <= 1)%nat.
Proof. unfold count_calls. cbn [List.filter fst]. destruct (String.eqb other name); simpl; lia. Qed.

Lemma sends_once (name : string) (names : list string) {A : Type} (m : M A) (st : state) :
  In name names -> calls_at_most_once name m -> sends names st (snd (m st)).
Proof.
  intros Hin Hm. destruct (Hm st) as [H | [args H]]; [apply sends_nothing, H |].
  exists [(name, args)]. split; [exact H |]. split.
  - constructor; [exact Hin | constructor].
  - intros n. apply count_calls_single.
Qed.

Lemma Proxy_call_once (srv : list call -> call -> outcome value) (server : value)
    (name : string) (args : list value) :
  calls_at_most_once name (Proxy_call srv server name args).
Proof. intros st. destruct server; try (left; reflexivity). right. eexists. reflexivity. Qed.

Lemma states_once (srv : list call -> call -> outcome value) :
  calls_at_most_once "Report_getCurrentStates" (states srv).
Proof.
  unfold states, _report_getCurrentStates.
  pose proof same_wire_refl. pose proof same_wire_trans.
  apply once_then_same_wire; [apply _callWithParams_once | intros r].
  repeat respects_step.
Qed.

Lemma _report_getDowntimes_once (srv : list call -> call -> outcome value)
    (check starttime endtime resolution : value) :
  calls_at_most_once "Report_getDowntimes"
    (_report_getDowntimes srv check starttime endtime resolution).
Proof.
  unfold _report_getDowntimes, _convertTime.
  pose proof same_wire_refl. pose proof same_wire_trans.
  apply same_wire_then_once; [repeat respects_step | intros from].
  apply same_wire_then_once; [repeat respects_step | intros to]. cbv zeta.
  apply once_then_same_wire; [apply _callWithParams_once | intros r].
  repeat respects_step.
Qed.

Lemma echo_once (srv : list call -> call -> outcome value) (inString : value) :
  calls_at_most_once "Test_echo" (echo srv inString).
Proof.
  unfold echo. pose proof same_wire_refl. pose proof same_wire_trans.
  apply same_wire_then_once; [repeat respects_step | intros server].
  apply once_then_same_wire; [apply Proxy_call_once | intros r].
  repeat respects_step.
Qed.

Lemma _logout_once (srv : list call -> call -> outcome value) :
  calls_at_most_once "Auth_logout" (_logout srv).
Proof.
  unfold _logout. pose proof same_wire_refl. pose proof same_wire_trans.
  pose proof same_wire_setattr.
  apply same_wire_then_once; [repeat respects_step | intros sid].
  destruct (py_eq sid VNone); [apply same_wire_once; repeat respects_step |].
  apply once_then_same_wire; [apply _callWithParams_once | intros r].
  repeat respects_step.
Qed.

Lemma downtimesFor_sends (srv : list call -> call -> outcome value)
    (check starttime endtime resolution : value) (st : state) :
  sends ["Check_getList"; "Report_getDowntimes"] st
    (snd (downtimesFor srv check starttime endtime resolution st)).
Proof.
  rewrite run_downtimesFor.
  destruct (py_eq starttime endtime); [apply sends_nothing; reflexivity |].
  destruct (REPORT_RESOLUTIONS_contains resolution) as [known | e];
    [| apply sends_nothing; reflexivity].
  destruct (negb known); [apply sends_nothing; reflexivity |].
  pose proof (checks_once srv st) as Hc.
  assert (Hchecks : sends ["Check_getList"; "Report_getDowntimes"] st (snd (checks srv st))).
  { apply (sends_once "Check_getList"); [simpl; tauto | apply checks_once]. }
  destruct (checks srv st) as [[cs | e] st1]; simpl in Hc, Hchecks; [| exact Hchecks].
  destruct (py_in check cs) as [present | e]; [| exact Hchecks].
  destruct (negb present).
  { unfold raise_PingdomException. destruct (PingdomException_init _); exact Hchecks. }
  destruct (existsb (py_eq VNone) [check; starttime; endtime; resolution]); [exact Hchecks |].
  pose proof (_report_getDowntimes_once srv check starttime endtime resolution st1) as Hd.
  destruct Hd as [Hd | [args Hd]].
  - destruct Hchecks as (new & Hw & Hf & Hn). exists new. rewrite Hd. auto.
  - destruct Hc as [Hc | [args1 Hc]].
    + exists [("Report_getDowntimes", args)]. rewrite Hd, Hc. split; [reflexivity |]. split.
      * constructor; [simpl; tauto | constructor].
      * intros n. apply count_calls_single.
    + exists [("Check_getList", args1); ("Report_getDowntimes", args)].
      rewrite Hd, Hc, <- app_assoc. split; [reflexivity |]. split.
      * constructor; [simpl; tauto |]. constructor; [simpl; tauto | constructor].
      * intros n. unfold count_calls. cbn [List.filter fst].
        destruct (String.eqb_spec "Check_getList" n) as [<- |]; [simpl; lia |].
        destruct (String.eqb "Report_getDowntimes" n); simpl; lia.
Qed.

Lemma count_calls_absent (name : string) (names : list string) (new : list call) :
  ~ In name names -> Forall (fun c => In (fst c) names) new -> count_calls name new = 0%nat.
Proof.
  intros Hn Hf. induction Hf as [| c new Hc _ IH]; [reflexivity |].
  change (c :: new) with ([c] ++ new)%list. rewrite count_calls_app, IH.
  unfold count_calls. cbn [List.filter].
  destruct (String.eqb_spec (fst c) name) as [<- |]; [contradiction | reflexivity].
Qed.

(** X7: what each public operation may put on the wire: [checks] only
    [Check_getList], [locations] only [Location_getList], [states] only
    [Report_getCurrentStates], [downtimesFor] only [Check_getList] and
    [Report_getDowntimes], [echo] only [Test_echo], disposal only
    [Auth_logout], each at most once per operation; [loggedin],
    [username], [apikey], [downtimes] and [__repr__] nothing.  So no
    operation ever logs in again: the number of [Auth_login] calls on the
    wire stays what it was. *)
Theorem run_sends (srv : list call -> call -> outcome value) (o : op) (st : state) :
  sends (methods_of o) st (run srv o st) /\
  count_calls "Auth_login" (wire (run srv o st)) = count_calls "Auth_login" (wire st).
Proof.
  assert (H : sends (methods_of o) st (run srv o st)).
  { pose proof same_wire_refl. pose proof same_wire_trans.
    destruct o; unfold run, methods_of.
    - apply sends_nothing. apply (respects_loggedin same_wire); assumption.
    - apply sends_nothing. apply (respects_username same_wire); assumption.
    - apply sends_nothing. apply (respects_apikey same_wire); assumption.
    - apply (sends_once "Check_getList"); [simpl; tauto | apply checks_once].
    - apply (sends_once "Location_getList"); [simpl; tauto | apply locations_once].
    - apply (sends_once "Report_getCurrentStates"); [simpl; tauto | apply states_once].
    - apply sends_nothing. apply (respects_downtimes srv same_wire); assumption.
    - apply downtimesFor_sends.
    - apply (sends_once "Test_echo"); [simpl; tauto | apply echo_once].
    - rewrite snd___del__.
      apply (sends_once "Auth_logout" _ (_logout srv)); [simpl; tauto | apply _logout_once].
    - apply sends_nothing. apply (respects___repr__ same_wire); assumption. }
  split; [exact H |].
  destruct H as (new & Hw & Hf & _). rewrite Hw, count_calls_app.
  rewrite (count_calls_absent "Auth_login" (methods_of o) new); [lia | | exact Hf].
  destruct o; simpl; intuition discriminate.
Qed.

(** ** Operations that raise *)

Lemma same_attrs_refl (st : state) : same_attrs st st.
Proof. reflexivity. Qed.

Lemma same_attrs_trans (a b c : state) : same_attrs a b -> same_attrs b c -> same_attrs a c.
Proof. unfold same_attrs. congruence. Qed.

Lemma same_attrs_Proxy_call (srv : list call -> call -> outcome value) (server : value)
    (name : string) (args : list value) :
  respects same_attrs (Proxy_call srv server name args).
Proof. intros st. destruct server; reflexivity. Qed.

Lemma same_attrs__callWithParams (srv : list call -> call -> outcome value)
    (name : string) (rest : list value) :
  respects same_attrs (_callWithParams srv name rest).
Proof.
  unfold _callWithParams, apikey.
  pose proof same_attrs_refl. pose proof same_attrs_trans.
  pose proof (same_attrs_Proxy_call srv).
  repeat respects_step.
Qed.

Lemma same_attrs_raise_keeps {A : Type} (m : M A) :
  respects same_attrs m -> raise_keeps_attrs m.
Proof. intros Hm st e st1 H. specialize (Hm st). rewrite H in Hm. exact Hm. Qed.

Lemma raise_keeps_bind {A B : Type} (m : M A) (f : A -> M B) :
  respects same_attrs m -> (forall a, raise_keeps_attrs (f a)) ->
  raise_keeps_attrs (m ≫= f).
Proof.
  intros Hm Hf st e st1. rewrite run_bind. specialize (Hm st).
  destruct (m st) as [[a | e'] st']; simpl in Hm.
  - intros H. rewrite <- Hm. exact (Hf a st' e st1 H).
  - intros [= _ <-]. exact Hm.
Qed.

Lemma raise_keeps_raise_PingdomException {A : Type} (status : value) :
  raise_keeps_attrs (@raise_PingdomException A status).
Proof.
  apply same_attrs_raise_keeps. apply respects_raise_PingdomException, same_attrs_refl.
Qed.

(** Storing an attribute and returning does not raise. *)
Lemma raise_keeps_setattr_ret {A : Type} (n : string) (v : value) (a : A) :
  raise_keeps_attrs (setattr n v;; mret a).
Proof. intros st e st1. discriminate. Qed.

Lemma raise_keeps__check_getList (srv : list call -> call -> outcome value) :
  raise_keeps_attrs (_check_getList srv).
Proof.
  unfold _check_getList. pose proof same_attrs_refl.
  apply raise_keeps_bind; [apply same_attrs__callWithParams | intros r].
  apply raise_keeps_bind; [apply respects_lift; assumption | intros [status checklist]].
  destruct (py_eq status (VInt 0)); [| apply raise_keeps_raise_PingdomException].
  apply raise_keeps_bind; [apply respects_lift; assumption | intros item].
  apply raise_keeps_setattr_ret.
Qed.

Lemma raise_keeps__location_getList (srv : list call -> call -> outcome value) :
  raise_keeps_attrs (_location_getList srv).
Proof.
  unfold _location_getList. pose proof same_attrs_refl.
  apply raise_keeps_bind; [apply same_attrs__callWithParams | intros r].
  apply raise_keeps_bind; [apply respects_lift; assumption | intros [status locationlist]].
  destruct (py_eq status (VInt 0)); [| apply raise_keeps_raise_PingdomException].
  apply raise_keeps_bind; [apply respects_lift; assumption | intros item].
  apply raise_keeps_setattr_ret.
Qed.

Lemma _check_getList_Return (srv : list call -> call -> outcome value) (st st1 : state)
    (b : bool) :
  _check_getList srv st = (Return b, st1) -> is_Some (attrs st1 !! "_checks").
Proof.
  unfold _check_getList. rewrite run_bind.
  destruct (_callWithParams srv "Check_getList" [] st) as [[r | e] st']; [| discriminate].
  rewrite run_bind. unfold lift.
  destruct (unpack2 r) as [[status checklist] | e]; [| discriminate].
  destruct (py_eq status (VInt 0)).
  - rewrite run_bind. destruct (getitem checklist "item") as [item | e]; [| discriminate].
    intros [= _ <-]. simpl. rewrite lookup_insert_eq. eauto.
  - unfold raise_PingdomException. destruct (PingdomException_init status); discriminate.
Qed.

Lemma _location_getList_Return (srv : list call -> call -> outcome value) (st st1 : state)
    (b : bool) :
  _location_getList srv st = (Return b, st1) -> is_Some (attrs st1 !! "_locations").
Proof.
  unfold _location_getList. rewrite run_bind.
  destruct (_callWithParams srv "Location_getList" [] st) as [[r | e] st']; [| discriminate].
  rewrite run_bind. unfold lift.
  destruct (unpack2 r) as [[status locationlist] | e]; [| discriminate].
  destruct (py_eq status (VInt 0)).
  - rewrite run_bind. destruct (getitem locationlist "item") as [item | e]; [| discriminate].
    intros [= _ <-]. simpl. rewrite lookup_insert_eq. eauto.
  - unfold raise_PingdomException. destruct (PingdomException_init status); discriminate.
Qed.

Lemma raise_keeps_checks (srv : list call -> call -> outcome value) :
  raise_keeps_attrs (checks srv).
Proof.
  intros st e st1. unfold checks. rewrite run_bind. unfold getattr at 1.
  destruct (attrs st !! "_checks") as [c |] eqn:Hc; [| intros [= _ <-]; reflexivity].
  rewrite run_bind. destruct (is_None c).
  - destruct (_check_getList srv st) as [[b | e'] st'] eqn:Hg.
    + apply _check_getList_Return in Hg as [x Hx]. rewrite (run_getattr _ _ _ Hx). discriminate.
    + intros [= _ <-]. exact (raise_keeps__check_getList srv st e' st' Hg).
  - simpl. rewrite (run_getattr _ _ _ Hc). discriminate.
Qed.

Lemma raise_keeps_locations (srv : list call -> call -> outcome value) :
  raise_keeps_attrs (locations srv).
Proof.
  intros st e st1. unfold locations. rewrite run_bind. unfold getattr at 1.
  destruct (attrs st !! "_locations") as [c |] eqn:Hc; [| intros [= _ <-]; reflexivity].
  rewrite run_bind. destruct (is_None c).
  - destruct (_location_getList srv st) as [[b | e'] st'] eqn:Hg.
    + apply _location_getList_Return in Hg as [x Hx]. rewrite (run_getattr _ _ _ Hx).
      discriminate.
    + intros [= _ <-]. exact (raise_keeps__location_getList srv st e' st' Hg).
  - simpl. rewrite (run_getattr _ _ _ Hc). discriminate.
Qed.

Lemma raise_keeps__logout (srv : list call -> call -> outcome value) :
  raise_keeps_attrs (_logout srv).
Proof.
  unfold _logout. pose proof same_attrs_refl.
  apply raise_keeps_bind; [apply respects_getattr; assumption | intros sid].
  destruct (py_eq sid VNone); [intros st e st1; discriminate |].
  apply raise_keeps_bind; [apply same_attrs__callWithParams | intros r].
  apply raise_keeps_bind; [apply respects_lift; assumption | intros status].
  destruct (py_eq status (VInt 0)); [| apply raise_keeps_raise_PingdomException].
  apply raise_keeps_setattr_ret.
Qed.

(** X8: [checks], [locations], [states], [echo] and disposal change the
    client only when they succeed: if one of them raises, be it a service
    error, a transport fault or a malformed reply, every attribute of the
    client, the two caches and the session id among them, is what it was
    before the call. *)
Theorem raising_operation_keeps_attrs (srv : list call -> call -> outcome value) :
  raise_keeps_attrs (checks srv) /\
  raise_keeps_attrs (locations srv) /\
  raise_keeps_attrs (states srv) /\
  (forall inString, raise_keeps_attrs (echo srv inString)) /\
  raise_keeps_attrs (__del__ srv).
Proof.
  pose proof same_attrs_refl as Hr. pose proof same_attrs_trans as Ht.
  pose proof (same_attrs__callWithParams srv) as Hcall.
  pose proof (same_attrs_Proxy_call srv) as Hproxy.
  split; [apply raise_keeps_checks |]. split; [apply raise_keeps_locations |].
  split; [| split].
  - apply same_attrs_raise_keeps. apply respects_states; assumption.
  - intros inString. apply same_attrs_raise_keeps. apply respects_echo; assumption.
  - intros st e st1. rewrite run___del__.
    destruct (_logout srv st) as [[b | e'] st'] eqn:Hl; [discriminate |].
    intros [= _ <-]. exact (raise_keeps__logout srv st e' st' Hl).
Qed.

Lemma raising_operation_keeps_attrs_witness :
  fst (checks (Sample.rejecting "Check_getList" 4)
         (Sample.client_of (Sample.rejecting "Check_getList" 4))) =
    Raise (PingdomException (VInt 4) "Error 4: Internal Error") /\
  attrs (snd (checks (Sample.rejecting "Check_getList" 4)
                (Sample.client_of (Sample.rejecting "Check_getList" 4)))) =
    attrs (Sample.client_of (Sample.rejecting "Check_getList" 4)).
Proof.
  split; [reflexivity |].
  exact (proj1 (raising_operation_keeps_attrs (Sample.rejecting "Check_getList" 4))
           (Sample.client_of (Sample.rejecting "Check_getList" 4))
           (PingdomException (VInt 4) "Error 4: Internal Error")
           (snd (checks (Sample.rejecting "Check_getList" 4)
                   (Sample.client_of (Sample.rejecting "Check_getList" 4))))
           eq_refl).
Defined.

(** ** Filling the caches *)

Lemma run__check_getList (srv : list call -> call -> outcome value) (st : state)
    (w : string) (k sid : value) :
  attrs st !! "_server" = Some (VProxy w) ->
  attrs st !! "_apikey" = Some k ->
  attrs st !! "_sessionid" = Some sid ->
  let c := ("Check_getList", [k; sid]) in
  let st' := State (attrs st) (wire st ++ [c]) in
  _check_getList srv st =
    match srv (wire st) c with
    | Raise e => (Raise e, st')
    | Return r =>
        match unpack2 r with
        | Raise e => (Raise e, st')
        | Return (status, checklist) =>
            if py_eq status (VInt 0) then
              match getitem checklist "item" with
              | Raise e => (Raise e, st')
              | Return item =>
                  (Return true, State (<["_checks" := item]> (attrs st)) (wire st ++ [c]))
              end
            else raise_PingdomException status st'
        end
    end.
Proof.
  intros Hs Hk Hi c st'. unfold _check_getList.
  rewrite run_bind, (run__callWithParams srv "Check_getList" [] st w k sid Hs Hk Hi).
  fold c. fold st'.
  destruct (srv (wire st) c) as [r | e]; [| reflexivity].
  rewrite run_bind. unfold lift. destruct (unpack2 r) as [[status checklist] | e]; [| reflexivity].
  destruct (py_eq status (VInt 0)); [| reflexivity].
  rewrite run_bind. destruct (getitem checklist "item"); reflexivity.
Qed.

Lemma run__location_getList (srv : list call -> call -> outcome value) (st : state)
    (w : string) (k sid : value) :
  attrs st !! "_server" = Some (VProxy w) ->
  attrs st !! "_apikey" = Some k ->
  attrs st !! "_sessionid" = Some sid ->
  let c := ("Location_getList", [k; sid]) in
  let st' := State (attrs st) (wire st ++ [c]) in
  _location_getList srv st =
    match srv (wire st) c with
    | Raise e => (Raise e, st')
    | Return r =>
        match unpack2 r with
        | Raise e => (Raise e, st')
        | Return (status, locationlist) =>
            if py_eq status (VInt 0) then
              match getitem locationlist "item" with
              | Raise e => (Raise e, st')
              | Return item =>
                  (Return true, State (<["_locations" := item]> (attrs st)) (wire st ++ [c]))
              end
            else raise_PingdomException status st'
        end
    end.
Proof.
  intros Hs Hk Hi c st'. unfold _location_getList.
  rewrite run_bind, (run__callWithParams srv "Location_getList" [] st w k sid Hs Hk Hi).
  fold c. fold st'.
  destruct (srv (wire st) c) as [r | e]; [| reflexivity].
  rewrite run_bind. unfold lift.
  destruct (unpack2 r) as [[status locationlist] | e]; [| reflexivity].
  destruct (py_eq status (VInt 0)); [| reflexivity].
  rewrite run_bind. destruct (getitem locationlist "item"); reflexivity.
Qed.

(** X9: the first access to [checks], the cache being empty, sends one
    [Check_getList] with the API key and the session id; answered with
    status 0, it stores the [item] of the result in the cache and returns
    it.  [locations] does the same with [Location_getList]. *)
Theorem first_access_fetches_item (srv : list call -> call -> outcome value) (st : state)
    (w : string) (k sid payload item : value) :
  attrs st !! "_server" = Some (VProxy w) ->
  attrs st !! "_apikey" = Some k ->
  attrs st !! "_sessionid" = Some sid ->
  getitem payload "item" = Return item ->
  (attrs st !! "_checks" = Some VNone ->
   srv (wire st) ("Check_getList", [k; sid]) = Return (VTuple [VInt 0; payload]) ->
   checks srv st =
     (Return item,
      State (<["_checks" := item]> (attrs st)) (wire st ++ [("Check_getList", [k; sid])]))) /\
  (attrs st !! "_locations" = Some VNone ->
   srv (wire st) ("Location_getList", [k; sid]) = Return (VTuple [VInt 0; payload]) ->
   locations srv st =
     (Return item,
      State (<["_locations" := item]> (attrs st))
        (wire st ++ [("Location_getList", [k; sid])]))).
Proof.
  intros Hs Hk Hi Hitem. split.
  - intros Hc Hr. unfold checks. rewrite run_bind, (run_getattr _ _ _ Hc). simpl is_None.
    cbv iota. rewrite run_bind, (run__check_getList srv st w k sid Hs Hk Hi), Hr.
    change (unpack2 (VTuple [VInt 0; payload])) with (Return (VInt 0, payload)).
    cbv iota beta. rewrite py_eq_VInt, Hitem. simpl.
    apply run_getattr. simpl. apply lookup_insert_eq.
  - intros Hc Hr. unfold locations. rewrite run_bind, (run_getattr _ _ _ Hc). simpl is_None.
    cbv iota. rewrite run_bind, (run__location_getList srv st w k sid Hs Hk Hi), Hr.
    change (unpack2 (VTuple [VInt 0; payload])) with (Return (VInt 0, payload)).
    cbv iota beta. rewrite py_eq_VInt, Hitem. simpl.
    apply run_getattr. simpl. apply lookup_insert_eq.
Qed.

Lemma first_access_fetches_item_witness :
  locations (Sample.service Sample.ok) Sample.client =
    (Return (VList [VStr "Stockholm"]),
     State (<["_locations" := VList [VStr "Stockholm"]]> (attrs Sample.client))
       (wire Sample.client ++ [("Location_getList", [VStr "KEY"; VStr "session-1"])])).
Proof.
  exact (proj2 (first_access_fetches_item (Sample.service Sample.ok) Sample.client
                  PINGDOM_WSDL (VStr "KEY") (VStr "session-1")
                  (VStruct [("item", VList [VStr "Stockholm"])]) (VList [VStr "Stockholm"])
                  eq_refl eq_refl eq_refl eq_refl)
           eq_refl eq_refl).
Defined.

(** ** Transport faults *)



(** ** Echo *)

(** X11: [echo] needs no session: it reads only the proxy.  When the
    service answers [Test_echo] with status 0 and a result, [echo] returns
    that result (the caller's string, if the service echoes) and changes
    no attribute; when it answers a status of [STATUS_CODES] other than 0,
    [echo] raises the [PingdomException] of that status. *)
Theorem echo_returns_result (srv : list call -> call -> outcome value) (st : state)
    (w : string) (inString result : value) (z : Z) :
  attrs st !! "_server" = Some (VProxy w) ->
  srv (wire st) ("Test_echo", [inString]) = Return (VTuple [VInt z; result]) ->
  (z = 0 ->
   echo srv inString st =
     (Return result, State (attrs st) (wire st ++ [("Test_echo", [inString])]))) /\
  (forall meaning, z <> 0 -> assocZ z STATUS_CODES = Some meaning ->
   echo srv inString st =
     (Raise (PingdomException (VInt z) (PingdomException_message z meaning)),
      State (attrs st) (wire st ++ [("Test_echo", [inString])]))).
Proof.
  intros Hs Hr. unfold echo. rewrite run_bind, (run_getattr _ _ _ Hs), run_bind.
  simpl Proxy_call. rewrite Hr. rewrite run_bind.
  change (lift (unpack2 (VTuple [VInt z; result])))
    with (@lift (value * value) (Return (VInt z, result))).
  unfold lift. cbv iota beta. rewrite py_eq_VInt. split.
  - intros ->. reflexivity.
  - intros meaning Hz Hm. apply Z.eqb_neq in Hz. rewrite Hz.
    apply run_raise_PingdomException, Hm.
Qed.

Lemma echo_returns_result_witness :
  echo (Sample.service Sample.ok) (VStr "hello")
      (snd (__del__ (Sample.service Sample.ok) Sample.client)) =
    (Return (VStr "hello"),
     State (attrs (snd (__del__ (Sample.service Sample.ok) Sample.client)))
       (wire (snd (__del__ (Sample.service Sample.ok) Sample.client))
          ++ [("Test_echo", [VStr "hello"])])).
Proof.
  exact (proj1 (echo_returns_result (Sample.service Sample.ok)
                  (snd (__del__ (Sample.service Sample.ok) Sample.client))
                  PINGDOM_WSDL (VStr "hello") (VStr "hello") 0 eq_refl eq_refl)
           eq_refl).
Defined.

(** ** Downtime reports, after validation *)

Lemma run_downtimesFor_valid (srv : list call -> call -> outcome value)
    (check starttime endtime resolution : value) (st st1 : state) (cs : value) :
  py_eq starttime endtime = false ->
  REPORT_RESOLUTIONS_contains resolution = Return true ->
  checks srv st = (Return cs, st1) ->
  py_in check cs = Return true ->
  existsb (py_eq VNone) [check; starttime; endtime; resolution] = false ->
  downtimesFor srv check starttime endtime resolution st =
    _report_getDowntimes srv check starttime endtime resolution st1.
Proof.
  intros Hne Hres Hc Hin Hnone.
  rewrite run_downtimesFor, Hne, Hres, Hc, Hin, Hnone. reflexivity.
Qed.

Lemma checks_keeps_lookups (srv : list call -> call -> outcome value) (st st1 : state)
    (r : outcome value) (n : string) :
  In n ["_server"; "_apikey"; "_sessionid"] ->
  checks srv st = (r, st1) -> attrs st1 !! n = attrs st !! n.
Proof.
  intros Hn Hc.
  pose proof (checks_frame srv ["_server"; "_apikey"; "_sessionid"]) as H.
  specialize (H ltac:(simpl; intuition discriminate) st). rewrite Hc in H.
  apply H, Hn.
Qed.

(** X12: [downtimesFor] compares the caller's times whole but sends only
    their first six fields: two time tuples that differ, yet agree on
    their first six fields, pass the first rule, and the report is then
    asked for with [from] equal to [to]. *)
Theorem downtimesFor_from_equals_to (srv : list call -> call -> outcome value)
    (check resolution : value) (xs ys : list value) (st st1 : state) (cs : value)
    (w : string) (k sid : value) :
  attrs st !! "_server" = Some (VProxy w) ->
  attrs st !! "_apikey" = Some k ->
  attrs st !! "_sessionid" = Some sid ->
  py_eq (VTuple xs) (VTuple ys) = false ->
  firstn 6 xs = firstn 6 ys ->
  REPORT_RESOLUTIONS_contains resolution = Return true ->
  checks srv st = (Return cs, st1) ->
  py_in check cs = Return true ->
  existsb (py_eq VNone) [check; VTuple xs; VTuple ys; resolution] = false ->
  wire (snd (downtimesFor srv check (VTuple xs) (VTuple ys) resolution st)) =
    (wire st1 ++
     [("Report_getDowntimes",
       [k; sid; VDict [ ("checkName", VStr "Communicate");
                        ("from", VDateTime (VTuple (firstn 6 xs)));
                        ("to", VDateTime (VTuple (firstn 6 xs)));
                        ("resolution", VStr "DAILY") ]])])%list.
Proof.
  intros Hs Hk Hi Hne Hsix Hres Hc Hin Hnone.
  rewrite (run_downtimesFor_valid srv _ _ _ _ st st1 cs Hne Hres Hc Hin Hnone).
  rewrite (snd__report_getDowntimes srv check resolution xs ys st1 w k sid).
  - rewrite Hsix. reflexivity.
  - rewrite (checks_keeps_lookups srv st st1 _ "_server" ltac:(simpl; tauto) Hc). exact Hs.
  - rewrite (checks_keeps_lookups srv st st1 _ "_apikey" ltac:(simpl; tauto) Hc). exact Hk.
  - rewrite (checks_keeps_lookups srv st st1 _ "_sessionid" ltac:(simpl; tauto) Hc). exact Hi.
Qed.

Lemma downtimesFor_from_equals_to_witness :
  wire (snd (downtimesFor (Sample.service Sample.ok) (VStr "Web")
               (VTuple Sample.t2009) (VTuple Sample.t2009_dst) (VStr "DAILY")
               Sample.client)) =
    (wire (snd (checks (Sample.service Sample.ok) Sample.client)) ++
     [("Report_getDowntimes",
       [VStr "KEY"; VStr "session-1";
        VDict [ ("checkName", VStr "Communicate");
                ("from", VDateTime (VTuple [VInt 2009; VInt 1; VInt 1; VInt 0; VInt 0; VInt 0]));
                ("to", VDateTime (VTuple [VInt 2009; VInt 1; VInt 1; VInt 0; VInt 0; VInt 0]));
                ("resolution", VStr "DAILY") ]])])%list.
Proof.
  exact (downtimesFor_from_equals_to (Sample.service Sample.ok)
           (VStr "Web") (VStr "DAILY") Sample.t2009 Sample.t2009_dst Sample.client
           (snd (checks (Sample.service Sample.ok) Sample.client))
           (VList [VStr "Web"; VStr "Communicate"])
           PINGDOM_WSDL (VStr "KEY") (VStr "session-1")
           eq_refl eq_refl eq_refl eq_refl eq_refl eq_refl eq_refl eq_refl eq_refl).
Defined.

(** X13: a time that passes the four rules but cannot be sliced (an
    integer, say) makes [downtimesFor] raise the TypeError of the slice
    once the checks have been read; no [Report_getDowntimes] goes out. *)
Theorem downtimesFor_unsliceable_time (srv : list call -> call -> outcome value)
    (check starttime endtime resolution : value) (st st1 : state) (cs : value) (e : exn) :
  py_eq starttime endtime = false ->
  REPORT_RESOLUTIONS_contains resolution = Return true ->
  checks srv st = (Return cs, st1) ->
  py_in check cs = Return true ->
  existsb (py_eq VNone) [check; starttime; endtime; resolution] = false ->
  slice6 starttime = Raise e \/
  (exists t, slice6 starttime = Return t) /\ slice6 endtime = Raise e ->
  downtimesFor srv check starttime endtime resolution st = (Raise e, st1) /\
  count_calls "Report_getDowntimes" (wire st1) = count_calls "Report_getDowntimes" (wire st).
Proof.
  intros Hne Hres Hc Hin Hnone Hslice. split.
  - rewrite (run_downtimesFor_valid srv _ _ _ _ st st1 cs Hne Hres Hc Hin Hnone).
    unfold _report_getDowntimes, _convertTime. rewrite !run_bind. unfold lift.
    destruct Hslice as [-> | [[t ->] He]]; [reflexivity |].
    simpl. rewrite !run_bind. rewrite He. reflexivity.
  - pose proof (checks_no_Report_getDowntimes srv st) as Hn. rewrite Hc in Hn. exact Hn.
Qed.

Lemma downtimesFor_unsliceable_time_witness :
  downtimesFor (Sample.service Sample.ok) (VStr "Web") (VInt 1230768000) (VInt 1262304000)
      (VStr "DAILY") Sample.client =
    (Raise (TypeError "'int' object has no attribute '__getitem__'"),
     snd (checks (Sample.service Sample.ok) Sample.client)).
Proof.
  exact (proj1 (downtimesFor_unsliceable_time (Sample.service Sample.ok) (VStr "Web")
                  (VInt 1230768000) (VInt 1262304000) (VStr "DAILY") Sample.client
                  (snd (checks (Sample.service Sample.ok) Sample.client))
                  (VList [VStr "Web"; VStr "Communicate"])
                  (TypeError "'int' object has no attribute '__getitem__'")
                  eq_refl eq_refl eq_refl eq_refl eq_refl (or_introl eq_refl))).
Defined.

(** X14: a call of [downtimesFor] that passes the four rules returns what
    the service's answer gives: on status 0, the records of the result's
    [item], each converted to a dict; on a status of [STATUS_CODES] other
    than 0, the [PingdomException] of that status. *)
Theorem downtimesFor_result (srv : list call -> call -> outcome value)
    (check resolution : value) (xs ys : list value) (st st1 : state) (cs : value)
    (w : string) (k sid payload : value) (z : Z) :
  attrs st !! "_server" = Some (VProxy w) ->
  attrs st !! "_apikey" = Some k ->
  attrs st !! "_sessionid" = Some sid ->
  py_eq (VTuple xs) (VTuple ys) = false ->
  REPORT_RESOLUTIONS_contains resolution = Return true ->
  checks srv st = (Return cs, st1) ->
  py_in check cs = Return true ->
  existsb (py_eq VNone) [check; VTuple xs; VTuple ys; resolution] = false ->
  srv (wire st1)
      ("Report_getDowntimes",
       [k; sid; VDict [ ("checkName", VStr "Communicate");
                        ("from", VDateTime (VTuple (firstn 6 xs)));
                        ("to", VDateTime (VTuple (firstn 6 ys)));
                        ("resolution", VStr "DAILY") ]])
    = Return (VTuple [VInt z; payload]) ->
  (forall rows, z = 0 -> getitem payload "item" = Return (VList (map VStruct rows)) ->
     fst (downtimesFor srv check (VTuple xs) (VTuple ys) resolution st) =
       Return (VList (map VDict rows))) /\
  (forall meaning, z <> 0 -> assocZ z STATUS_CODES = Some meaning ->
     fst (downtimesFor srv check (VTuple xs) (VTuple ys) resolution st) =
       Raise (PingdomException (VInt z) (PingdomException_message z meaning))).
Proof.
  intros Hs Hk Hi Hne Hres Hc Hin Hnone Hr.
  rewrite (run_downtimesFor_valid srv _ _ _ _ st st1 cs Hne Hres Hc Hin Hnone).
  assert (Hs1 : attrs st1 !! "_server" = Some (VProxy w))
    by (rewrite (checks_keeps_lookups srv st st1 _ "_server" ltac:(simpl; tauto) Hc);
        exact Hs).
  assert (Hk1 : attrs st1 !! "_apikey" = Some k)
    by (rewrite (checks_keeps_lookups srv st st1 _ "_apikey" ltac:(simpl; tauto) Hc);
        exact Hk).
  assert (Hi1 : attrs st1 !! "_sessionid" = Some sid)
    by (rewrite (checks_keeps_lookups srv st st1 _ "_sessionid" ltac:(simpl; tauto) Hc);
        exact Hi).
  rewrite (run__report_getDowntimes srv check resolution xs ys st1 w k sid Hs1 Hk1 Hi1).
  cbv zeta. rewrite Hr.
  change (unpack2 (VTuple [VInt z; payload])) with (Return (VInt z, payload)).
  cbv iota beta. rewrite py_eq_VInt. split.
  - intros rows -> Hitem. simpl. rewrite Hitem, py_map__asdict. reflexivity.
  - intros meaning Hz Hm. apply Z.eqb_neq in Hz.
    rewrite Hz, (run_raise_PingdomException z meaning _ Hm). reflexivity.
Qed.

Lemma downtimesFor_result_witness :
  fst (downtimesFor (Sample.service Sample.ok) (VStr "Web")
         (VTuple Sample.t2009) (VTuple Sample.t2010) (VStr "MONTHLY") Sample.client) =
    Return (VList [VDict [("checkName", VStr "Web"); ("checkState", VStr "CHECK_UP")]]).
Proof.
  exact (proj1 (downtimesFor_result (Sample.service Sample.ok)
                  (VStr "Web") (VStr "MONTHLY") Sample.t2009 Sample.t2010 Sample.client
                  (snd (checks (Sample.service Sample.ok) Sample.client))
                  (VList [VStr "Web"; VStr "Communicate"])
                  PINGDOM_WSDL (VStr "KEY") (VStr "session-1")
                  (VStruct [("item", VList [VStruct [("checkName", VStr "Web");
                                                     ("checkState", VStr "CHECK_UP")]])]) 0
                  eq_refl eq_refl eq_refl eq_refl eq_refl eq_refl eq_refl eq_refl eq_refl)
           [[("checkName", VStr "Web"); ("checkState", VStr "CHECK_UP")]] eq_refl eq_refl).
Defined.

(** ** The session, from construction to disposal *)

(** X15: a constructed client reports [loggedin] True exactly when the
    session id the service returned with status 0 is not None; the
    constructor stores whatever id comes back. *)
Theorem loggedin_after_construction (srv : list call -> call -> outcome value)
    (u p k sid : value) (w : list call) :
  srv w ("Auth_login", [k; VDict [("username", u); ("password", p)]])
    = Return (VTuple [VInt 0; sid]) ->
  exists a w',
    Pingdom srv u p k w = (Return a, w') /\
    loggedin (State a w') = (Return (negb (is_None sid)), State a w').
Proof.
  intros Hr. unfold Pingdom. rewrite run___init__.
  pose proof (run__login_fresh srv u p k w) as Hl. cbv zeta in Hl. rewrite Hl, Hr.
  change (unpack2 (VTuple [VInt 0; sid])) with (Return (VInt 0, sid)).
  cbv iota beta. simpl py_eq. cbv iota. eexists. eexists. split; [reflexivity |].
  unfold loggedin. rewrite run_bind.
  rewrite (run_getattr "_sessionid" sid); [reflexivity |]. simpl. apply lookup_insert_eq.
Qed.

Lemma loggedin_after_construction_witness :
  exists a w',
    Pingdom (Sample.service Sample.ok) (VStr "user") (VStr "secret") (VStr "KEY") []
      = (Return a, w') /\
    loggedin (State a w') = (Return true, State a w').
Proof.
  exact (loggedin_after_construction (Sample.service Sample.ok)
           (VStr "user") (VStr "secret") (VStr "KEY") (VStr "session-1") [] eq_refl).
Defined.

Lemma _logout_frame (srv : list call -> call -> outcome value) (st : state) :
  frame ["_server"; "_apikey"] st (snd (_logout srv st)).
Proof.
  apply (respects__logout srv (frame ["_server"; "_apikey"])).
  - apply frame_refl.
  - apply frame_trans.
  - intros v. apply frame_setattr. simpl. intuition discriminate.
  - apply frame__callWithParams.
Qed.

(** X16: the client does not refuse to work after disposal: once
    [__del__] has returned, an access to [states] still sends its
    [Report_getCurrentStates], with None where the session id goes. *)
Theorem states_after_logout (srv srv' : list call -> call -> outcome value)
    (st st1 : state) (b : value) (w : string) (k : value) :
  attrs st !! "_server" = Some (VProxy w) ->
  attrs st !! "_apikey" = Some k ->
  __del__ srv st = (Return b, st1) ->
  wire (snd (states srv' st1)) =
    (wire st1 ++ [("Report_getCurrentStates", [k; VNone])])%list.
Proof.
  intros Hs Hk Hd.
  pose proof (_logout_frame srv st) as Hf. rewrite <- snd___del__, Hd in Hf.
  simpl in Hf.
  rewrite (snd_states srv' st1 w k VNone).
  - reflexivity.
  - rewrite (Hf "_server"); [exact Hs | simpl; tauto].
  - rewrite (Hf "_apikey"); [exact Hk | simpl; tauto].
  - exact (__del___Return srv st st1 b Hd).
Qed.

Lemma states_after_logout_witness :
  wire (snd (states (Sample.service Sample.ok)
               (snd (__del__ (Sample.service Sample.ok) Sample.client)))) =
    (wire (snd (__del__ (Sample.service Sample.ok) Sample.client))
       ++ [("Report_getCurrentStates", [VStr "KEY"; VNone])])%list.
Proof.
  exact (states_after_logout (Sample.service Sample.ok) (Sample.service Sample.ok)
           Sample.client (snd (__del__ (Sample.service Sample.ok) Sample.client)) VNone
           PINGDOM_WSDL (VStr "KEY") eq_refl eq_refl eq_refl).
Defined.
